(** * pandastim: event timeline, texture validation and mask construction

    A shallow embedding of the parts of
    [drifting_grating_experiment.py] and [stimulus_classes.py] that decide
    how the stimulus timeline is stepped, how texture arrays are validated
    and how the binocular masks are built.

    Conventions of the embedding:
    - Python numbers (ints and floats alike) are rationals ([Q]); sums,
      products and comparisons are exact.  Integers that are used as
      indices are [Z].
    - An operation of the host rendering engine (window properties, cards,
      texture stages) is a total update of a record that stands for the
      engine object.
    - A Python exception ends the call; the state reached so far is kept,
      as Python keeps the mutations done before the [raise]. *)

From Stdlib Require Import ZArith QArith Qround List String Bool Lia Lqa.
From Stdlib Require Import Ascii DecimalString Sorted.
Import ListNotations.
Local Open Scope string_scope.
Local Open Scope list_scope.
Local Open Scope Z_scope.

(* ================================================================== *)
(** ** Python values and control *)

Module Py.

(** The exceptions the modelled code can raise.  A [ValueError] carries
    its message, since the source raises several different ones. *)
Inductive exn : Type :=
| IndexError
| AttributeError (attr : string)
| ValueError (msg : string).

Inductive result (A : Type) : Type :=
| Ok (a : A)
| Raise (e : exn).
Arguments Ok {A} a.
Arguments Raise {A} e.

Definition is_ok {A} (r : result A) : bool :=
  match r with Ok _ => true | Raise _ => false end.

(** [xs[i]] on a list, tuple or array: a negative index counts from the
    end, anything out of range raises [IndexError]. *)
Definition getitem {A} (xs : list A) (i : Z) : option A :=
  let n := Z.of_nat (List.length xs) in
  if (0 <=? i) && (i <? n) then nth_error xs (Z.to_nat i)
  else if (- n <=? i) && (i <? 0) then nth_error xs (Z.to_nat (i + n))
  else None.

(** [slice(start, stop).indices(n)] with the default step: the pair of
    clamped bounds [(lo, hi)]; the slice selects [lo <= i < hi]. *)
Definition clamp_index (n : Z) (i : Z) : Z :=
  if i <? 0 then Z.max (i + n) 0 else Z.min i n.

Definition slice_indices (start stop : option Z) (n : Z) : Z * Z :=
  (match start with None => 0 | Some a => clamp_index n a end,
   match stop with None => n | Some b => clamp_index n b end).

Definition in_slice (start stop : option Z) (n : Z) (i : Z) : bool :=
  let '(lo, hi) := slice_indices start stop n in
  (lo <=? i) && (i <? hi).

(** [xs[:-1]] *)
Definition drop_last {A} (xs : list A) : list A :=
  let '(lo, hi) := slice_indices None (Some (-1)) (Z.of_nat (List.length xs)) in
  firstn (Z.to_nat (hi - lo)) (skipn (Z.to_nat lo) xs).

(** [itertools.zip_longest(xs, ys)]: the shorter input is padded with
    [None]. *)
Fixpoint zip_longest {A B} (xs : list A) (ys : list B)
  : list (option A * option B) :=
  match xs, ys with
  | [], [] => []
  | x :: xs', [] => (Some x, None) :: zip_longest xs' []
  | [], y :: ys' => (None, Some y) :: map (fun y => (None, Some y)) ys'
  | x :: xs', y :: ys' => (Some x, Some y) :: zip_longest xs' ys'
  end.

(** [[y for x in pairs for y in x if y is not None]] *)
Definition flatten_not_none {A} (ps : list (option A * option A)) : list A :=
  flat_map (fun p =>
              match fst p with Some a => [a] | None => [] end ++
              match snd p with Some b => [b] | None => [] end) ps.

End Py.

(* ================================================================== *)
(** ** The part of numpy the code uses *)

Module Np.

(** Scalar types of array elements, as [type(arr.flat[0])] returns them. *)
Inductive dtype : Type :=
| bool_ | int8 | int16 | int32 | int64
| uint8 | uint16 | uint32 | uint64
| float16 | float32 | float64.

Definition dtype_eqb (a b : dtype) : bool :=
  match a, b with
  | bool_, bool_ | int8, int8 | int16, int16 | int32, int32
  | int64, int64 | uint8, uint8 | uint16, uint16 | uint32, uint32
  | uint64, uint64 | float16, float16 | float32, float32
  | float64, float64 => true
  | _, _ => false
  end.

(** An array: element type, shape, and the elements in C order. *)
Record ndarray : Type := mk_ndarray {
  dt : dtype;
  shape : list nat;
  data : list Q
}.

Definition size_of (sh : list nat) : nat := fold_right Nat.mul 1%nat sh.

(** [arr.ndim] *)
Definition ndim (a : ndarray) : Z := Z.of_nat (List.length (shape a)).

(** [type(arr.flat[0])]: the element type, [IndexError] on an array
    without elements. *)
Definition flat0_type (a : ndarray) : Py.result dtype :=
  match size_of (shape a) with
  | O => Py.Raise Py.IndexError
  | S _ => Py.Ok (dt a)
  end.

(** [np.cumsum(xs)] *)
Fixpoint cumsum_from (acc : Q) (xs : list Q) : list Q :=
  match xs with
  | [] => []
  | x :: xs' => (acc + x)%Q :: cumsum_from (acc + x)%Q xs'
  end.

Definition cumsum (xs : list Q) : list Q :=
  match xs with
  | [] => []
  | x :: xs' => x :: cumsum_from x xs'
  end.

(** Conversion of a float to [uint8] as [np.asarray(.., dtype=np.uint8)]
    does it: the fraction is cut off, the integer is taken modulo 256. *)
Definition trunc (q : Q) : Z := Z.quot (Qnum q) (Zpos (Qden q)).

Definition to_uint8 (q : Q) : Q := inject_Z (trunc q mod 256).

(** [np.ones(shape, dtype)]; a negative dimension raises [ValueError]. *)
Definition ones (sh : list Z) (d : dtype) : Py.result ndarray :=
  if forallb (fun n => 0 <=? n) sh then
    let sh' := map Z.to_nat sh in
    Py.Ok (mk_ndarray d sh' (repeat 1%Q (size_of sh')))
  else Py.Raise (Py.ValueError "negative dimensions are not allowed").

(** [k * arr] for a [uint8] array and a Python int [k]: the result keeps
    the array's type, products wrap. *)
Definition scalar_mul_uint8 (k : Q) (a : ndarray) : ndarray :=
  mk_ndarray (dt a) (shape a) (map (fun v => to_uint8 (k * v)) (data a)).

(** [arr * k] and [arr + k] and friends on a float array. *)
Definition map_float (f : Q -> Q) (a : ndarray) : ndarray :=
  mk_ndarray float64 (shape a) (map f (data a)).

(** [np.asarray(arr, dtype=np.uint8)] *)
Definition asarray_uint8 (a : ndarray) : ndarray :=
  mk_ndarray uint8 (shape a) (map to_uint8 (data a)).


(** Number of columns of a 2-d array. *)
Definition ncols (a : ndarray) : nat :=
  match shape a with
  | [_; c] => c
  | _ => 0%nat
  end.

(** [arr[r, c]] on a 2-d array, for indices in range. *)
Definition getitem2 (a : ndarray) (r c : nat) : option Q :=
  match shape a with
  | [nr; nc] =>
      if (r <? nr)%nat && (c <? nc)%nat
      then nth_error (data a) (r * nc + c)
      else None
  | _ => None
  end.

(** [arr[:, start:stop] = v] on a 2-d array. *)
Definition setitem_cols (a : ndarray) (start stop : option Z) (v : Q)
  : ndarray :=
  let nc := ncols a in
  mk_ndarray (dt a) (shape a)
    (map (fun ix =>
            if Py.in_slice start stop (Z.of_nat nc)
                 (Z.of_nat (fst ix mod nc))
            then v else snd ix)
         (combine (seq 0 (List.length (data a))) (data a))).

End Np.

(* ================================================================== *)
(** ** Methods: state of [self] threaded through, exceptions propagated *)

Module Eff.
Import Py.

(** A method body over the object state [S]: the state after the call
    (also when it raises) and the value returned or the exception. *)
Definition M (S A : Type) : Type := S -> S * result A.

Definition ret {S A} (a : A) : M S A := fun s => (s, Ok a).

Definition bind {S A B} (c : M S A) (k : A -> M S B) : M S B :=
  fun s =>
    match c s with
    | (s', Ok a) => k a s'
    | (s', Raise e) => (s', Raise e)
    end.

Definition raise {S A} (e : exn) : M S A := fun s => (s, Raise e).

(** Read an attribute of [self]. *)
Definition gets {S A} (f : S -> A) : M S A := fun s => (s, Ok (f s)).

(** Assign to attributes of [self]. *)
Definition modify {S} (f : S -> S) : M S unit := fun s => (f s, Ok tt).

(** [xs[i]] as an expression. *)
Definition index {S A} (xs : list A) (i : Z) : M S A :=
  match getitem xs i with
  | Some a => ret a
  | None => raise IndexError
  end.

(** Read an attribute that exists only once it has been assigned. *)
Definition getattr {S A} (name : string) (f : S -> option A) : M S A :=
  fun s =>
    match f s with
    | Some a => (s, Ok a)
    | None => (s, Raise (AttributeError name))
    end.

(** Embed a computation that does not touch [self]. *)
Definition lift {S A} (r : result A) : M S A := fun s => (s, r).

End Eff.

Declare Scope eff_scope.
Delimit Scope eff_scope with eff.
Notation "x <- c ;; k" := (Eff.bind c (fun x => k))
  (at level 61, c at next level, right associativity) : eff_scope.
Notation "c ;; k" := (Eff.bind c (fun _ => k))
  (at level 61, right associativity) : eff_scope.

(** The plain error monad, for constructors: an exception in [__init__]
    leaves no object behind. *)
Definition rbind {A B} (r : Py.result A) (k : A -> Py.result B)
  : Py.result B :=
  match r with
  | Py.Ok a => k a
  | Py.Raise e => Py.Raise e
  end.

Declare Scope res_scope.
Delimit Scope res_scope with res.
Notation "x <~ c ;; k" := (rbind c (fun x => k))
  (at level 61, c at next level, right associativity) : res_scope.

(* ================================================================== *)
(** ** The host engine objects the stimuli drive *)

Module Panda.

(** [Task.cont] and [Task.done]: whether the task manager calls the
    task again on the next frame. *)
Inductive task_status : Type := cont | done.

Inductive component_type : Type := T_unsigned_byte | T_unsigned_short.
Inductive texture_format : Type := F_luminance | F_rgb8.

Definition rgba : Type := (Q * Q * Q * Q)%type.

(** A texture: its name, what [setup2dTexture] was given (sizes,
    component type, format) and what [setRamImage] or [setRamImageAs]
    was given (the array and the format it is provided in). *)
Record Texture : Type := mk_Texture {
  tex_name : string;
  tex_setup : option (Z * Z * component_type * texture_format);
  tex_ram_image : option (Np.ndarray * string)
}.

(** [Texture(name)] *)
Definition new_texture (name : string) : Texture := mk_Texture name None None.

Definition setup2dTexture (x y : Z) (c : component_type) (f : texture_format)
           (t : Texture) : Texture :=
  mk_Texture (tex_name t) (Some (x, y, c, f)) (tex_ram_image t).

Definition setRamImageAs (image : Np.ndarray) (provided_format : string)
           (t : Texture) : Texture :=
  mk_Texture (tex_name t) (tex_setup t) (Some (image, provided_format)).

Definition setRamImage (image : Np.ndarray) (t : Texture) : Texture :=
  setRamImageAs image "" t.

(** A card in the scene graph with one texture stage. *)
Record Card : Type := mk_Card {
  card_color : rgba;
  card_texture : option (string * Texture);   (* stage name, texture *)
  card_R : Q;
  card_scale_sq : Q;                            (* square of the scale *)
  card_tex_pos : Q                              (* u offset of the stage *)
}.

Definition setColor (c : rgba) (k : Card) : Card :=
  mk_Card c (card_texture k) (card_R k) (card_scale_sq k) (card_tex_pos k).
Definition setTexture (stage : string) (t : Texture) (k : Card) : Card :=
  mk_Card (card_color k) (Some (stage, t)) (card_R k) (card_scale_sq k)
          (card_tex_pos k).
Definition clearTexture (k : Card) : Card :=
  mk_Card (card_color k) None (card_R k) (card_scale_sq k) (card_tex_pos k).
Definition setR (a : Q) (k : Card) : Card :=
  mk_Card (card_color k) (card_texture k) a (card_scale_sq k)
          (card_tex_pos k).
Definition setTexPos (u : Q) (k : Card) : Card :=
  mk_Card (card_color k) (card_texture k) (card_R k) (card_scale_sq k) u.

Definition new_card (scale_sq : Q) : Card :=
  mk_Card (1, 1, 1, 1)%Q None 0%Q scale_sq 0%Q.

End Panda.

(** Decimal rendering of an integer, as [print] and [str.format] do. *)
Definition str_of_Z (z : Z) : string := NilZero.string_of_int (Z.to_int z).

(* ================================================================== *)
(** ** drifting_grating_experiment.py *)

Module DriftingGrating.
Import Py Np Eff Panda.
Local Open Scope eff_scope.

(** *** Grating texture *)

Section Square.
(** [scipy.signal.square(t)] with the default duty cycle is [1] where
    [t mod 2*pi < pi] and [-1] elsewhere.  The test on the phase is
    scipy's and is kept as a parameter. *)
Variable first_half : Q -> bool.

Definition signal_square (t : ndarray) : ndarray :=
  map_float (fun v => if first_half v then 1 else -1)%Q t.

Definition squareWave (X : ndarray) (freq : Q) : ndarray :=
  signal_square (map_float (fun v => v * freq)%Q X).

Definition square8bit (X : ndarray) (freq : Q) : ndarray :=
  let square_float := squareWave X freq in
  let square_pos := map_float (fun v => (v + 1) * (255 # 2))%Q square_float in
  asarray_uint8 square_pos.
End Square.

(** *** Event structure *)

Definition derive_event_durations (inter_stimulus_times stim_durations : list Q)
  : list Q :=
  flatten_not_none (zip_longest inter_stimulus_times stim_durations).

Definition derive_event_change_times (inter_stimulus_times stim_durations : list Q)
  : list Q :=
  drop_last (cumsum (derive_event_durations inter_stimulus_times stim_durations)).

(** The two [assert]s under "quick tests". *)
Definition quick_tests (inter_stimulus_times stim_durations : list Q) : bool :=
  let num_stim := Z.of_nat (List.length stim_durations) in
  let num_event_changes :=
    Z.of_nat (List.length
                (derive_event_change_times inter_stimulus_times stim_durations)) in
  (Z.of_nat (List.length inter_stimulus_times) =? num_stim + 1)
  && (num_event_changes =? num_stim * 2).

(** *** The application *)

Record MyApp : Type := mk_MyApp {
  event_change_num : Z;
  stim_num : Z;
  baseline_stim : bool;
  windowProps_size : Z;
  windowProps_title : string;
  gratingTexture : Texture;
  card1 : Card;
  stdout : list string
}.

Definition set_event_change_num (n : Z) (s : MyApp) : MyApp :=
  mk_MyApp n (stim_num s) (baseline_stim s) (windowProps_size s)
           (windowProps_title s) (gratingTexture s) (card1 s) (stdout s).
Definition set_stim_num (n : Z) (s : MyApp) : MyApp :=
  mk_MyApp (event_change_num s) n (baseline_stim s) (windowProps_size s)
           (windowProps_title s) (gratingTexture s) (card1 s) (stdout s).
Definition set_baseline_stim (b : bool) (s : MyApp) : MyApp :=
  mk_MyApp (event_change_num s) (stim_num s) b (windowProps_size s)
           (windowProps_title s) (gratingTexture s) (card1 s) (stdout s).
Definition setTitle (t : string) (s : MyApp) : MyApp :=
  mk_MyApp (event_change_num s) (stim_num s) (baseline_stim s)
           (windowProps_size s) t (gratingTexture s) (card1 s) (stdout s).
Definition on_card1 (f : Card -> Card) (s : MyApp) : MyApp :=
  mk_MyApp (event_change_num s) (stim_num s) (baseline_stim s)
           (windowProps_size s) (windowProps_title s) (gratingTexture s)
           (f (card1 s)) (stdout s).
Definition print (line : string) (s : MyApp) : MyApp :=
  mk_MyApp (event_change_num s) (stim_num s) (baseline_stim s)
           (windowProps_size s) (windowProps_title s) (gratingTexture s)
           (card1 s) (stdout s ++ [line]).

Section App.
(** The module-level names the class reads. *)
Variable window_size texSize : Z.
Variable bgcolor : rgba.
Variable gratingTex : ndarray.
Variables angles shift_velocities event_change_times : list Q.

Definition num_event_changes : Z :=
  Z.of_nat (List.length event_change_times).

(** [MyApp.__init__]; [stim_num] starts at [-1], so the first rotation
    is [angles[-1]]. *)
Definition MyApp_init : result MyApp :=
  (let event_change_num := 0 in
   let stim_num := -1 in
   let baseline_stim := true in
   let gratingTexture :=
     setRamImage gratingTex
       (setup2dTexture texSize texSize T_unsigned_byte F_luminance
                       (new_texture "grating")) in
   let card1 := setColor bgcolor (new_card 2) in
   match getitem angles stim_num with
   | None => Raise IndexError
   | Some a =>
       Ok (mk_MyApp event_change_num stim_num baseline_stim window_size
                    "Full field: running" gratingTexture
                    (setR a card1) [])
   end).

(** [MyApp.moveTextureTask(task)], with [time] for [task.time]. *)
Definition moveTextureTask (time : Q) : M MyApp task_status :=
  n <- gets event_change_num ;;
  change_time <- index event_change_times n ;;
  (if Qle_bool change_time time then
     n <- gets event_change_num ;;
     (if n <? num_event_changes then
        b <- gets baseline_stim ;;
        (if b then
           modify (fun s => set_stim_num (stim_num s + 1) s) ;;
           modify (on_card1 (setColor (1, 1, 1, 1)%Q)) ;;
           tex <- gets gratingTexture ;;
           modify (on_card1 (setTexture "grating" tex)) ;;
           k <- gets stim_num ;;
           a <- index angles k ;;
           modify (on_card1 (setR a)) ;;
           k <- gets stim_num ;;
           modify (print (String "010"%char ("stim_num:  " ++ str_of_Z k)))
         else
           modify (on_card1 (setColor bgcolor)) ;;
           modify (on_card1 clearTexture)) ;;
        modify (fun s => set_baseline_stim (negb (baseline_stim s)) s) ;;
        modify (fun s => set_event_change_num (event_change_num s + 1) s)
      else ret tt) ;;
     n <- gets event_change_num ;;
     modify (print ("event_change_num:  " ++ str_of_Z n))
   else ret tt) ;;
  b <- gets baseline_stim ;;
  (if negb b then
     k <- gets stim_num ;;
     v <- index shift_velocities k ;;
     let shiftMag := (time * v)%Q in
     modify (on_card1 (setTexPos shiftMag))
   else ret tt) ;;
  last <- index event_change_times (-1) ;;
  if Qle_bool time last then ret cont
  else
    modify (print "Last stimulus has been shown") ;;
    modify (setTitle "Full field: done") ;;
    ret done.

(** The task manager: the task is called once per frame, with the
    frame's time, for as long as it returns [Task.cont]; an exception
    ends the run.  The result lists, for each call that was made, the
    time, the state after the call and its outcome. *)
Fixpoint run_frames (times : list Q) (s : MyApp)
  : list (Q * MyApp * result task_status) :=
  match times with
  | [] => []
  | t :: times' =>
      let '(s', r) := moveTextureTask t s in
      (t, s', r) :: match r with
                    | Ok cont => run_frames times' s'
                    | _ => []
                    end
  end.

(** States in which the task manager can call the task. *)
Inductive reachable : MyApp -> Prop :=
| reach_init s : MyApp_init = Ok s -> reachable s
| reach_frame s t s' :
    reachable s -> moveTextureTask t s = (s', Ok cont) -> reachable s'.
End App.

(** *** The module's parameters *)

Definition window_size : Z := 512.
Definition stim_durations : list Q := [4; 4; 6; 5]%Q.
Definition angles : list Q := [-20; 20; 45; 90]%Q.
Definition shift_velocities : list Q :=
  [- (15 # 100); 5 # 100; 25 # 100; - (1 # 10)]%Q.
Definition inter_stimulus_times : list Q := [4; 3; 3; 5 # 2; 5]%Q.
Definition texSize : Z := 512.
Definition spatial_freq : Q := 10.
Definition bgcolor : rgba := (1 # 2, 1 # 2, 1 # 2, 1)%Q.

Definition num_stim : Z := Z.of_nat (List.length stim_durations).
Definition event_durations : list Q :=
  derive_event_durations inter_stimulus_times stim_durations.
Definition event_change_times : list Q :=
  derive_event_change_times inter_stimulus_times stim_durations.

(** The application as the module runs it; the texture image is any
    array, the timeline does not look at it. *)
Definition app_init (gratingTex : ndarray) : result MyApp :=
  MyApp_init window_size texSize bgcolor gratingTex angles.
Definition app_task : Q -> M MyApp task_status :=
  moveTextureTask bgcolor angles shift_velocities event_change_times.
Definition app_run
  : list Q -> MyApp -> list (Q * MyApp * result task_status) :=
  run_frames bgcolor angles shift_velocities event_change_times.
Definition app_reachable (gratingTex : ndarray) : MyApp -> Prop :=
  reachable window_size texSize bgcolor gratingTex angles shift_velocities
            event_change_times.

End DriftingGrating.

(* ================================================================== *)
(** ** stimulus_classes.py *)

Module StimulusClasses.
Import Py Np Eff Panda.

(** *** Texture set-up shared by the two drifting classes *)

(** The element types a texture may have. *)
Definition supported (d : dtype) : bool :=
  dtype_eqb d uint8 || dtype_eqb d uint16.

(** The attribute [texture_component_type] is assigned only for the two
    supported element types; for any other type it stays unset. *)
Definition select_component_type (texture_dtype : dtype)
  : option component_type :=
  if dtype_eqb texture_dtype uint8 then Some T_unsigned_byte
  else if dtype_eqb texture_dtype uint16 then Some T_unsigned_short
  else None.

Definition read_attr {A} (name : string) (a : option A) : result A :=
  match a with
  | Some v => Ok v
  | None => Raise (AttributeError name)
  end.

Definition dims_msg : string := "Texture needs to be 2d or 3d".

(** "Select Texture Format": the branches on [self.ndims], each reading
    [self.texture_component_type] when it sets the texture up. *)
Definition setup_texture (texture_array : ndarray) (ndims : Z)
           (texture_component_type : option component_type)
           (texture_size : Z) : result Texture :=
  (let texture := new_texture "stimulus" in
   if ndims =? 2 then
     let texture_format := F_luminance in
     c <~ read_attr "texture_component_type" texture_component_type ;;
     Ok (setRamImageAs texture_array "L"
           (setup2dTexture texture_size texture_size c texture_format
                           texture))
   else if ndims =? 3 then
     let texture_format := F_rgb8 in
     c <~ read_attr "texture_component_type" texture_component_type ;;
     Ok (setRamImageAs texture_array "RGB"
           (setup2dTexture texture_size texture_size c texture_format
                           texture))
   else Raise (ValueError dims_msg))%res.

(** *** FullFieldDrift *)

Record FullFieldDrift : Type := mk_FullFieldDrift {
  ffd_texture_array : ndarray;
  ffd_texture_dtype : dtype;
  ffd_ndims : Z;
  ffd_angle : Q;
  ffd_velocity : Q;
  ffd_window_size : Z;
  ffd_window_title : string;
  ffd_texture : Texture;
  ffd_card1 : Card;
  ffd_task_added : bool          (* [moveTextureTask] given to taskMgr *)
}.

(** [FullFieldDrift.__init__] *)
Definition FullFieldDrift_init (texture_array : ndarray) (angle velocity : Q)
           (window_size texture_size : Z) : result FullFieldDrift :=
  (texture_dtype <~ flat0_type texture_array ;;
   let ndims := ndim texture_array in
   let texture_component_type := select_component_type texture_dtype in
   texture <~ setup_texture texture_array ndims texture_component_type
                            texture_size ;;
   let card1 := setR angle (setTexture "drifting" texture (new_card 2)) in
   Ok (mk_FullFieldDrift texture_array texture_dtype ndims angle velocity
                         window_size "FullFieldDrift" texture card1
                         (negb (Qeq_bool velocity 0))))%res.

(** [FullFieldDrift.moveTextureTask] *)
Definition FullFieldDrift_moveTextureTask (time : Q)
  : M FullFieldDrift task_status :=
  fun self =>
    let new_position := (- time * ffd_velocity self)%Q in
    (mk_FullFieldDrift
       (ffd_texture_array self) (ffd_texture_dtype self) (ffd_ndims self)
       (ffd_angle self) (ffd_velocity self) (ffd_window_size self)
       (ffd_window_title self) (ffd_texture self)
       (setTexPos new_position (ffd_card1 self)) (ffd_task_added self),
     Ok cont).

(** *** BinocularDrift *)

(** [ndc2uv] and [uv2ndc] *)
Definition ndc2uv (val : Q) : Q := ((1 # 2) * val)%Q.

(** "CREATE MASK ARRAYS" *)
Definition make_left_mask (texture_size band_radius : Z) : result ndarray :=
  (all_ones <~ ones [texture_size; texture_size] uint8 ;;
   let left_mask_array := scalar_mul_uint8 255 all_ones in
   Ok (setitem_cols left_mask_array
                    (Some (texture_size / 2 - band_radius)) None 0%Q))%res.

Definition make_right_mask (texture_size band_radius : Z) : result ndarray :=
  (all_ones <~ ones [texture_size; texture_size] uint8 ;;
   let right_mask_array := scalar_mul_uint8 255 all_ones in
   Ok (setitem_cols right_mask_array
                    None (Some (texture_size / 2 + band_radius)) 0%Q))%res.

Inductive texture_update : Type :=
| move_both | move_left | move_right | move_none.

(** The pieces [trs_transform] composes: shift to the mask centre,
    scale, rotate, shift back. *)
Record mask_transform : Type := mk_mask_transform {
  mt_center_shift : Q * Q;
  mt_inv_scale_sq : Q;
  mt_rotate : Q;
  mt_translate : Q * Q
}.

Record BinocularDrift : Type := mk_BinocularDrift {
  mask_position_ndc : Q * Q;
  mask_position_uv : Q * Q;
  bd_texture_array : ndarray;
  bd_texture_dtype : dtype;
  bd_ndims : Z;
  left_texture_angle : Q;
  right_texture_angle : Q;
  left_velocity : Q;
  right_velocity : Q;
  mask_angle : Q;
  bd_window_size : Z;
  bd_window_title : string;
  left_mask_array : ndarray;
  right_mask_array : ndarray;
  bd_texture : Texture;
  bd_mask_transform : mask_transform;
  bd_update : texture_update
}.

Definition trs_transform (mask_position_uv : Q * Q) (mask_angle : Q)
  : mask_transform :=
  let pos := ((1 # 2) + fst mask_position_uv,
              (1 # 2) + snd mask_position_uv)%Q in
  mk_mask_transform (- fst pos, - snd pos)%Q (1 # 8) mask_angle
                    (1 # 2, 1 # 2)%Q.

(** [BinocularDrift.__init__] *)
Definition BinocularDrift_init (texture_array : ndarray)
           (stim_angles : Q * Q) (mask_angle : Q) (position : Q * Q)
           (velocities : Q * Q) (band_radius window_size texture_size : Z)
  : result BinocularDrift :=
  (let mask_position_ndc := position in
   let mask_position_uv :=
     (ndc2uv (fst mask_position_ndc), ndc2uv (snd mask_position_ndc)) in
   texture_dtype <~ flat0_type texture_array ;;
   let ndims := ndim texture_array in
   let left_velocity := fst velocities in
   let right_velocity := snd velocities in
   left_mask_array <~ make_left_mask texture_size band_radius ;;
   right_mask_array <~ make_right_mask texture_size band_radius ;;
   let texture_component_type := select_component_type texture_dtype in
   texture <~ setup_texture texture_array ndims texture_component_type
                            texture_size ;;
   let update :=
     if negb (Qeq_bool left_velocity 0) && negb (Qeq_bool right_velocity 0)
     then move_both
     else if negb (Qeq_bool left_velocity 0) && Qeq_bool right_velocity 0
     then move_left
     else if Qeq_bool left_velocity 0 && negb (Qeq_bool right_velocity 0)
     then move_right
     else move_none in
   Ok (mk_BinocularDrift mask_position_ndc mask_position_uv texture_array
         texture_dtype ndims (fst stim_angles) (snd stim_angles)
         left_velocity right_velocity mask_angle window_size
         "BinocularDrift" left_mask_array right_mask_array texture
         (trs_transform mask_position_uv mask_angle) update))%res.

(** *** FullFieldDriftExperiment *)

Local Open Scope eff_scope.

Section Experiment.
(** The keyword arguments of a texture function, and the names the
    two tasks read from the module rather than from [self]:
    [texture_function], [event_change_times] and [texture_size], as
    the module's main block defines them. *)
Variable kwargs : Type.
Variable texture_function : kwargs -> ndarray.
Variable event_change_times : list Q.
Variable texture_size : Z.

(** An entry of [stim_params]. *)
Record StimParams : Type := mk_StimParams {
  sp_angle : Q;
  sp_velocity : Q;
  sp_kwargs : kwargs
}.

Record ExperimentStructure : Type := mk_ExperimentStructure {
  es_event_values : list Z;
  es_event_durations : list Q;
  es_event_change_times : list Q
}.

Record FullFieldDriftExperiment : Type := mk_FFDE {
  events : list Z;
  self_event_change_times : list Q;
  event_durations : list Q;
  current_event_num : Z;
  num_events : Z;
  stim_params : list StimParams;
  self_texture_size : Z;
  window_size : Z;
  bgcolor : rgba;
  window_title : string;
  card1 : Card;
  texture : option Texture;
  texture_stage : option string;
  stdout : list string
}.

Definition set_current_event_num (n : Z) (s : FullFieldDriftExperiment) :=
  mk_FFDE (events s) (self_event_change_times s) (event_durations s) n
          (num_events s) (stim_params s) (self_texture_size s)
          (window_size s) (bgcolor s) (window_title s) (card1 s)
          (texture s) (texture_stage s) (stdout s).
Definition set_title (t : string) (s : FullFieldDriftExperiment) :=
  mk_FFDE (events s) (self_event_change_times s) (event_durations s)
          (current_event_num s) (num_events s) (stim_params s)
          (self_texture_size s) (window_size s) (bgcolor s) t (card1 s)
          (texture s) (texture_stage s) (stdout s).
Definition on_card1 (f : Card -> Card) (s : FullFieldDriftExperiment) :=
  mk_FFDE (events s) (self_event_change_times s) (event_durations s)
          (current_event_num s) (num_events s) (stim_params s)
          (self_texture_size s) (window_size s) (bgcolor s)
          (window_title s) (f (card1 s)) (texture s) (texture_stage s)
          (stdout s).
Definition set_texture (t : Texture) (s : FullFieldDriftExperiment) :=
  mk_FFDE (events s) (self_event_change_times s) (event_durations s)
          (current_event_num s) (num_events s) (stim_params s)
          (self_texture_size s) (window_size s) (bgcolor s)
          (window_title s) (card1 s) (Some t) (texture_stage s)
          (stdout s).
Definition on_texture (f : Texture -> Texture)
           (s : FullFieldDriftExperiment) :=
  mk_FFDE (events s) (self_event_change_times s) (event_durations s)
          (current_event_num s) (num_events s) (stim_params s)
          (self_texture_size s) (window_size s) (bgcolor s)
          (window_title s) (card1 s) (option_map f (texture s))
          (texture_stage s) (stdout s).
Definition set_texture_stage (n : string) (s : FullFieldDriftExperiment) :=
  mk_FFDE (events s) (self_event_change_times s) (event_durations s)
          (current_event_num s) (num_events s) (stim_params s)
          (self_texture_size s) (window_size s) (bgcolor s)
          (window_title s) (card1 s) (texture s) (Some n) (stdout s).
Definition print (line : string) (s : FullFieldDriftExperiment) :=
  mk_FFDE (events s) (self_event_change_times s) (event_durations s)
          (current_event_num s) (num_events s) (stim_params s)
          (self_texture_size s) (window_size s) (bgcolor s)
          (window_title s) (card1 s) (texture s) (texture_stage s)
          (stdout s ++ [line]).

(** [FullFieldDriftExperiment.__init__] *)
Definition FullFieldDriftExperiment_init (stim_params : list StimParams)
           (experiment_structure : ExperimentStructure)
           (window_size texture_size : Z) : FullFieldDriftExperiment :=
  let events := es_event_values experiment_structure in
  let bgcolor := (1 # 2, 1 # 2, 1 # 2, 1)%Q in
  mk_FFDE events (es_event_change_times experiment_structure)
          (es_event_durations experiment_structure) 0
          (Z.of_nat (List.length events)) stim_params texture_size
          window_size bgcolor "FFDE Initializing"
          (setColor bgcolor (new_card 8)) None None [].

(** The properties [current_event_ind] and [current_stim_params]. *)
Definition current_event_ind : M FullFieldDriftExperiment Z :=
  evs <- gets events ;;
  n <- gets current_event_num ;;
  index evs n.

Definition current_stim_params : M FullFieldDriftExperiment StimParams :=
  ps <- gets stim_params ;;
  e <- current_event_ind ;;
  index ps e.

Definition dtype_msg : string :=
  "Texture needs to be uint8 or uint16. Let me know if you have others.".
Definition dims_rgb_msg : string :=
  "Texture needs to be 2d or 3d (rgb). Let us know if you have others.".

(** The [else] branch of [set_texture_task]: build the texture of the
    stimulus that starts and put it on the card. *)
Definition show_stimulus : M FullFieldDriftExperiment unit :=
  p <- current_stim_params ;;
  let texture_params := sp_kwargs p in
  let texture_array := texture_function texture_params in
  texture_dtype <- lift (flat0_type texture_array) ;;
  let texture_ndims := ndim texture_array in
  modify (set_texture (new_texture "stim_texture")) ;;
  texture_component_type <-
    (if dtype_eqb texture_dtype uint8 then ret T_unsigned_byte
     else if dtype_eqb texture_dtype uint16 then ret T_unsigned_short
     else raise (ValueError dtype_msg)) ;;
  fmt <-
    (if texture_ndims =? 2 then ret (F_luminance, "L")
     else if texture_ndims =? 3 then ret (F_rgb8, "RGB")
     else raise (ValueError dims_rgb_msg)) ;;
  let texture_format := fst fmt in
  let provided_format := snd fmt in
  modify (on_texture (setup2dTexture texture_size texture_size
                        texture_component_type texture_format)) ;;
  modify (on_texture (setRamImageAs texture_array provided_format)) ;;
  modify (set_texture_stage "stim_texture_stage") ;;
  modify (on_card1 (setColor (1, 1, 1, 1)%Q)) ;;
  tex <- getattr "texture" texture ;;
  modify (on_card1 (setTexture "stim_texture_stage" tex)) ;;
  p <- current_stim_params ;;
  modify (on_card1 (setR (sp_angle p))) ;;
  n <- gets current_event_num ;;
  e <- current_event_ind ;;
  modify (set_title ("FFDE " ++ str_of_Z n ++ ": " ++ str_of_Z e)).

(** The [if] branch: back to the background colour. *)
Definition show_baseline : M FullFieldDriftExperiment unit :=
  bg <- gets bgcolor ;;
  modify (on_card1 (setColor bg)) ;;
  _ <- getattr "texture_stage" texture_stage ;;
  modify (on_card1 clearTexture) ;;
  n <- gets current_event_num ;;
  modify (set_title ("FFDE " ++ str_of_Z n ++ ": baseline")).

(** [set_texture_task(task)], with [time] for [task.time]. *)
Definition set_texture_task (time : Q)
  : M FullFieldDriftExperiment task_status :=
  last <- index event_change_times (-1) ;;
  if Qle_bool time last then
    ects <- gets self_event_change_times ;;
    n <- gets current_event_num ;;
    change_time <- index ects n ;;
    (if Qle_bool change_time time then
       modify (fun s => set_current_event_num (current_event_num s + 1) s) ;;
       e <- current_event_ind ;;
       if e =? -1 then show_baseline else show_stimulus
     else ret tt) ;;
    ret cont
  else ret done.

(** [move_texture_task(task)] *)
Definition move_texture_task (time : Q)
  : M FullFieldDriftExperiment task_status :=
  last <- index event_change_times (-1) ;;
  if Qle_bool time last then
    e <- current_event_ind ;;
    (if negb (e =? -1) then
       p <- current_stim_params ;;
       let new_position := (- time * sp_velocity p)%Q in
       _ <- getattr "texture_stage" texture_stage ;;
       modify (on_card1 (setTexPos new_position))
     else ret tt) ;;
    ret cont
  else
    modify (print "Last stimulus has been shown") ;;
    modify (set_title "FFDE Done") ;;
    ret done.

(** Whether the event on show is the baseline. *)
Definition on_baseline (s : FullFieldDriftExperiment) : option bool :=
  option_map (fun e => e =? -1) (getitem (events s) (current_event_num s)).

(** One frame of the task manager: the tasks that are still scheduled
    are called with the frame's time, [move_texture] first (it was
    added first); each stays scheduled if it returns [task.cont]. *)
Definition is_cont (r : task_status) : bool :=
  match r with cont => true | done => false end.

Definition frame (time : Q) (scheduled : bool * bool)
  : M FullFieldDriftExperiment (bool * bool) :=
  move_on <- (if fst scheduled
              then r <- move_texture_task time ;; ret (is_cont r)
              else ret false) ;;
  set_on <- (if snd scheduled
             then r <- set_texture_task time ;; ret (is_cont r)
             else ret false) ;;
  ret (move_on, set_on).

(** The frames of a run; an exception in a task ends it.  The result
    lists the time of each frame, the state after it and which tasks
    are still scheduled (or the exception). *)
Fixpoint run_frames (times : list Q) (scheduled : bool * bool)
         (s : FullFieldDriftExperiment)
  : list (Q * FullFieldDriftExperiment * result (bool * bool)) :=
  match times with
  | [] => []
  | t :: times' =>
      let '(s', r) := frame t scheduled s in
      (t, s', r) :: match r with
                    | Ok scheduled' => run_frames times' scheduled' s'
                    | Raise _ => []
                    end
  end.
(** The call of [set_texture_task] at [time] in state [s] moves on
    to an event that is a stimulus, with parameters [p]: the run is
    not over, the change time at the current index has come, and the
    next event is not the baseline. *)
Definition starts_stimulus (s : FullFieldDriftExperiment) (time : Q)
           (p : StimParams) : Prop :=
  exists (last change_time : Q) (e : Z),
    getitem event_change_times (-1) = Some last
    /\ (time <= last)%Q
    /\ getitem (self_event_change_times s) (current_event_num s)
       = Some change_time
    /\ (change_time <= time)%Q
    /\ getitem (events s) (current_event_num s + 1) = Some e
    /\ e <> -1
    /\ getitem (stim_params s) e = Some p.

(** The parts of the state that neither task ever assigns. *)
Definition same_timeline (s s' : FullFieldDriftExperiment) : Prop :=
  events s' = events s
  /\ self_event_change_times s' = self_event_change_times s
  /\ stim_params s' = stim_params s.
End Experiment.

Arguments mk_StimParams {kwargs}.
Arguments sp_angle {kwargs}.
Arguments sp_velocity {kwargs}.
Arguments sp_kwargs {kwargs}.
Arguments events {kwargs}.
Arguments self_event_change_times {kwargs}.
Arguments current_event_num {kwargs}.
Arguments stim_params {kwargs}.
Arguments window_title {kwargs}.
Arguments card1 {kwargs}.
Arguments texture {kwargs}.
Arguments texture_stage {kwargs}.
Arguments on_baseline {kwargs}.
Arguments set_current_event_num {kwargs}.
Arguments set_texture_task {kwargs}.
Arguments move_texture_task {kwargs}.
Arguments show_stimulus {kwargs}.
Arguments show_baseline {kwargs}.
Arguments current_event_ind {kwargs}.
Arguments current_stim_params {kwargs}.
Arguments starts_stimulus {kwargs}.
Arguments same_timeline {kwargs}.
Arguments frame {kwargs}.
Arguments run_frames {kwargs}.

(** *** The experiment of the module's main block (test case 5) *)

Module Main.
Definition window_size : Z := 512.
Definition texture_size : Z := window_size.

(** [kwargs] of the texture function: spatial frequency and size. *)
Definition kwargs : Type := (Q * Z)%type.

Definition stim_params : list (StimParams kwargs) :=
  [ mk_StimParams (-20) (1 # 10) (15%Q, texture_size);
    mk_StimParams 20 (- (8 # 100)) (10%Q, texture_size);
    mk_StimParams 90 (5 # 100) (5%Q, texture_size) ]%Q.

Definition stimulus_values : list Z := [2; 1; 0; 1].
Definition stim_durations : list Q := [4; 4; 2; 3]%Q.
Definition delay_durations : list Q := [4; 2; 3; 2]%Q.
Definition initial_baseline_duration : list Q := [2]%Q.
Definition baseline_durations : list Q :=
  initial_baseline_duration ++ delay_durations.
Definition num_stim : nat := List.length stim_durations.
Definition num_baselines : nat := List.length baseline_durations.

Definition all_events : list Z :=
  flatten_not_none (zip_longest (repeat (-1) num_baselines) stimulus_values).
Definition event_durations : list Q :=
  flatten_not_none (zip_longest baseline_durations stim_durations).
Definition event_change_times : list Q := cumsum event_durations.

Definition experiment_structure : ExperimentStructure :=
  mk_ExperimentStructure all_events event_durations event_change_times.

Definition exp_app : FullFieldDriftExperiment kwargs :=
  FullFieldDriftExperiment_init kwargs stim_params experiment_structure
                                window_size texture_size.
End Main.

End StimulusClasses.

(* ================================================================== *)
(** ** Sample inputs *)

Module Sample.
Import Np.

(** A rational stand-in for scipy's phase test: period 6, first half on. *)
Definition first_half (t : Q) : bool := Qfloor t mod 6 <? 3.

(** Texture arrays of the kinds the constructors tell apart. *)
Definition gray_uint8 : ndarray := mk_ndarray uint8 [4; 4]%nat (repeat 0%Q 16).
Definition gray_float64 : ndarray :=
  mk_ndarray float64 [4; 4]%nat (repeat (1 # 2)%Q 16).

(** A texture function that returns the same array for all arguments. *)
Definition constant_texture (a : ndarray) : StimulusClasses.Main.kwargs -> ndarray :=
  fun _ => a.

(** The main block's experiment at a given event index. *)
Definition exp_app_at (n : Z)
  : StimulusClasses.FullFieldDriftExperiment StimulusClasses.Main.kwargs :=
  StimulusClasses.set_current_event_num n StimulusClasses.Main.exp_app.

(** The frames of the main block's experiment with a texture function
    that always returns [a]: time, event index after the frame, and
    which tasks stay scheduled. *)
Definition exp_app_frames (a : ndarray) (times : list Q)
  : list (Q * Z * Py.result (bool * bool)) :=
  map (fun f => (fst (fst f), StimulusClasses.current_event_num (snd (fst f)),
                 snd f))
      (StimulusClasses.run_frames (constant_texture a)
         StimulusClasses.Main.event_change_times
         StimulusClasses.Main.texture_size times (true, true)
         StimulusClasses.Main.exp_app).

(** The frames of the drifting-grating application of
    [drifting_grating_experiment.py]: time, event-change index and
    baseline flag after the call, and what the call returned. *)
Definition app_frames (times : list Q)
  : Py.result (list (Q * Z * bool * Py.result Panda.task_status)) :=
  (s <~ DriftingGrating.app_init gray_uint8 ;;
   Py.Ok (map (fun f => (fst (fst f),
                         DriftingGrating.event_change_num (snd (fst f)),
                         DriftingGrating.baseline_stim (snd (fst f)),
                         snd f))
              (DriftingGrating.app_run times s)))%res.

(** A binocular stimulus on an 8 by 8 texture with band radius 1. *)
Definition binocular : Py.result StimulusClasses.BinocularDrift :=
  StimulusClasses.BinocularDrift_init
    (mk_ndarray uint8 [8; 8]%nat (repeat 0%Q 64))
    (30, -30)%Q 45 (0, 0)%Q (0, 0)%Q 1 8 8.
End Sample.

(* ================================================================== *)
(** ** More of Python and numpy *)

Module PyMore.
Import Py.

(** [xs[start:stop]] *)
Definition slice {A} (xs : list A) (start stop : option Z) : list A :=
  let '(lo, hi) := slice_indices start stop (Z.of_nat (List.length xs)) in
  firstn (Z.to_nat (hi - lo)) (skipn (Z.to_nat lo) xs).

(** [xs[i]] in a constructor. *)
Definition index_r {A} (xs : list A) (i : Z) : result A :=
  match getitem xs i with
  | Some a => Ok a
  | None => Raise IndexError
  end.

(** [X, Y = np.meshgrid(x, y)]: both have [len(y)] rows and [len(x)]
    columns; every row of [X] is [x], every column of [Y] is [y]. *)
Definition meshgrid_X (x y : list Q) : Np.ndarray :=
  Np.mk_ndarray Np.float64 [List.length y; List.length x]
                (List.concat (repeat x (List.length y))).

Definition meshgrid_Y (x y : list Q) : Np.ndarray :=
  Np.mk_ndarray Np.float64 [List.length y; List.length x]
                (flat_map (fun v => repeat v (List.length x)) y).

End PyMore.

(* ================================================================== *)
(** ** drifting_grating_experiment.py: the grating texture *)

Module GratingTexture.
Import Py Np PyMore DriftingGrating.

(** [gratingTex]: the square wave over the first [texSize] sample points
    of [x] along the columns.  [x] and [y] are the module's
    [np.linspace(0, 2*np.pi, texSize+1)]; their values are kept as
    parameters. *)
Definition gratingTex (first_half : Q -> bool) (x y : list Q) : ndarray :=
  let X := meshgrid_X (slice x None (Some texSize))
                      (slice y None (Some texSize)) in
  square8bit first_half X spatial_freq.

End GratingTexture.

(* ================================================================== *)
(** ** stimulus_classes.py: the static classes, the binocular updates
       and the runs of the experiment *)

Module StimulusClassesRest.
Import Py Np Eff Panda StimulusClasses.

(** *** FullFieldStatic *)

Definition ffd_setTitle (t : string) (self : FullFieldDrift) : FullFieldDrift :=
  mk_FullFieldDrift (ffd_texture_array self) (ffd_texture_dtype self)
    (ffd_ndims self) (ffd_angle self) (ffd_velocity self)
    (ffd_window_size self) t (ffd_texture self) (ffd_card1 self)
    (ffd_task_added self).

(** [FullFieldStatic.__init__] *)
Definition FullFieldStatic_init (texture_array : ndarray) (angle : Q)
           (window_size texture_size : Z) : result FullFieldDrift :=
  (let velocity := 0%Q in
   self <~ FullFieldDrift_init texture_array angle velocity window_size
                               texture_size ;;
   Ok (ffd_setTitle "FullFieldStatic" self))%res.

(** *** BinocularStatic *)

Definition bd_setTitle (t : string) (self : BinocularDrift) : BinocularDrift :=
  mk_BinocularDrift (mask_position_ndc self) (mask_position_uv self)
    (bd_texture_array self) (bd_texture_dtype self) (bd_ndims self)
    (left_texture_angle self) (right_texture_angle self)
    (left_velocity self) (right_velocity self) (mask_angle self)
    (bd_window_size self) t (left_mask_array self) (right_mask_array self)
    (bd_texture self) (bd_mask_transform self) (bd_update self).

(** [BinocularStatic.__init__] *)
Definition BinocularStatic_init (texture_array : ndarray)
           (stim_angles : Q * Q) (mask_angle : Q) (position : Q * Q)
           (band_radius window_size texture_size : Z)
  : result BinocularDrift :=
  (let velocities := (0, 0)%Q in
   self <~ BinocularDrift_init texture_array stim_angles mask_angle position
                               velocities band_radius window_size
                               texture_size ;;
   Ok (bd_setTitle "BinocularStatic" self))%res.

(** *** The per-frame updates of BinocularDrift *)

(** The [u] offsets of the texture stages of the left and the right
    card; both are 0 until [setTexPos] is called. *)
Record TexturePositions : Type := mk_TexturePositions {
  left_tex_pos : Q;
  right_tex_pos : Q
}.

Definition initial_positions : TexturePositions := mk_TexturePositions 0 0.

(** [textures_update], [left_texture_update], [right_texture_update] *)
Definition textures_update (time : Q)
  : M (BinocularDrift * TexturePositions) task_status :=
  fun st =>
    let self := fst st in
    let left_tex_position := (- time * left_velocity self)%Q in
    let right_tex_position := (- time * right_velocity self)%Q in
    ((self, mk_TexturePositions left_tex_position right_tex_position),
     Ok cont).

Definition left_texture_update (time : Q)
  : M (BinocularDrift * TexturePositions) task_status :=
  fun st =>
    let self := fst st in
    let left_tex_position := (- time * left_velocity self)%Q in
    ((self, mk_TexturePositions left_tex_position (right_tex_pos (snd st))),
     Ok cont).

Definition right_texture_update (time : Q)
  : M (BinocularDrift * TexturePositions) task_status :=
  fun st =>
    let self := fst st in
    let right_tex_position := (- time * right_velocity self)%Q in
    ((self, mk_TexturePositions (left_tex_pos (snd st)) right_tex_position),
     Ok cont).

(** One frame of the task manager: the task [__init__] added, if it
    added one, is called with the frame's time. *)
Definition update_frame (time : Q) (st : BinocularDrift * TexturePositions)
  : BinocularDrift * TexturePositions :=
  match bd_update (fst st) with
  | move_both => fst (textures_update time st)
  | move_left => fst (left_texture_update time st)
  | move_right => fst (right_texture_update time st)
  | move_none => st
  end.

(** *** Runs of FullFieldDriftExperiment *)

Section ExperimentRun.
Variable kwargs : Type.
Variable texture_function : kwargs -> ndarray.
Variable event_change_times : list Q.
Variable texture_size : Z.
Variable start : FullFieldDriftExperiment kwargs.

(** The states a run passes through: each task is called only after
    the calls before it returned. *)
Inductive run_reachable : FullFieldDriftExperiment kwargs -> Prop :=
| run_start : run_reachable start
| run_move s t s' r :
    run_reachable s ->
    move_texture_task event_change_times t s = (s', Ok r) ->
    run_reachable s'
| run_set s t s' r :
    run_reachable s ->
    set_texture_task texture_function event_change_times texture_size t s
    = (s', Ok r) ->
    run_reachable s'.
End ExperimentRun.

End StimulusClassesRest.

(* ================================================================== *)
(** ** binocular_omr_grating.py *)

Module BinocularOmr.
Import Py Np PyMore Panda.

(** "Create masks" of the main block. *)
Definition make_leftMask (texture_size band_radius : Z) : result ndarray :=
  (all_ones <~ ones [texture_size; texture_size] uint8 ;;
   let leftMask := scalar_mul_uint8 255 all_ones in
   Ok (setitem_cols leftMask None (Some (texture_size / 2 + band_radius))
                    0%Q))%res.

Definition make_rightMask (texture_size band_radius : Z) : result ndarray :=
  (all_ones <~ ones [texture_size; texture_size] uint8 ;;
   let rightMask := scalar_mul_uint8 255 all_ones in
   Ok (setitem_cols rightMask (Some (texture_size / 2 - band_radius)) None
                    0%Q))%res.

Record BinocularStatic : Type := mk_BinocularStatic {
  texture_array : ndarray;
  texture_dtype : dtype;
  ndims : Z;
  angle : Q;
  window_size : Z;
  window_title : string;
  grating_texture : Texture;
  leftMaskTex : Texture;
  rightMaskTex : Texture;
  background : rgba;
  card1_pos : Q * Q * Q;
  card2_pos : Q * Q * Q;
  title_pos : Q * Q
}.


Section Globals.
(** The module-level masks the class reads. *)
Variables leftMask rightMask : ndarray.

(** [BinocularStatic.__init__] *)
Definition BinocularStatic_init (texture_array : ndarray) (angle : Q)
           (position : list Q) (window_size texture_size : Z)
           (bgcolor : rgba) : result BinocularStatic :=
  (texture_dtype <~ Np.flat0_type texture_array ;;
   let ndims := ndim texture_array in
   let grating_texture :=
     setRamImage texture_array
       (setup2dTexture texture_size texture_size T_unsigned_byte F_luminance
                       (new_texture "Grating")) in
   let leftMaskTex :=
     setRamImage leftMask
       (setup2dTexture texture_size texture_size T_unsigned_byte F_luminance
                       (new_texture "left_mask")) in
   let rightMaskTex :=
     setRamImage rightMask
       (setup2dTexture texture_size texture_size T_unsigned_byte F_luminance
                       (new_texture "right_mask")) in
   x1 <~ index_r position 0 ;;
   y1 <~ index_r position 1 ;;
   z1 <~ index_r position 2 ;;
   x2 <~ index_r position 0 ;;
   y2 <~ index_r position 1 ;;
   z2 <~ index_r position 2 ;;
   tx <~ index_r position 0 ;;
   tz <~ index_r position 2 ;;
   Ok (mk_BinocularStatic texture_array texture_dtype ndims angle
         window_size "BinocularStatic" grating_texture leftMaskTex
         rightMaskTex bgcolor (x1, y1, z1) (x2, y2, z2) (tx, tz)))%res.
End Globals.

End BinocularOmr.

(* ================================================================== *)
(** ** Traces of the event index *)

(** Frame times that never go back. *)
Fixpoint nondecreasing (times : list Q) : Prop :=
  match times with
  | [] => True
  | t :: rest =>
      match rest with
      | [] => True
      | t' :: _ => (t <= t')%Q
      end /\ nondecreasing rest
  end.

Section Trace.
Variables S R : Type.
Variable index_of : S -> Z.            (* the event-change index *)
Variable change_times_of : S -> list Q. (* the timeline it walks *)

(** One call at time [t] from [s] to [s']: the index does not go down,
    and it goes up only if [t] has reached the change time at the old
    index. *)
Definition index_step_ok (s : S) (t : Q) (s' : S) : Prop :=
  index_of s <= index_of s' /\
  (index_of s < index_of s' ->
   exists c, Py.getitem (change_times_of s) (index_of s) = Some c
             /\ (c <= t)%Q).

Fixpoint index_trace_ok (s : S) (trace : list (Q * S * R)) : Prop :=
  match trace with
  | [] => True
  | (t, s', _) :: rest => index_step_ok s t s' /\ index_trace_ok s' rest
  end.
End Trace.

(* ================================================================== *)
(** * Properties *)

(** ** Lists, slices and sums *)

Lemma zip_longest_nil_r {A B} (xs : list A) :
  Py.zip_longest xs (@nil B) = map (fun x => (Some x, None)) xs.
Proof.
  induction xs as [|x xs IH]; simpl; [reflexivity|].
  now rewrite IH.
Qed.

Lemma flatten_left_only {A} (xs : list A) :
  Py.flatten_not_none (map (fun x => (Some x, @None A)) xs) = xs.
Proof.
  unfold Py.flatten_not_none.
  induction xs as [|x xs IH]; simpl; [reflexivity|].
  now rewrite IH.
Qed.

Lemma flatten_right_only {A} (ys : list A) :
  Py.flatten_not_none (map (fun y => (@None A, Some y)) ys) = ys.
Proof.
  unfold Py.flatten_not_none.
  induction ys as [|y ys IH]; simpl; [reflexivity|].
  now rewrite IH.
Qed.

Lemma interleave_length {A} (xs ys : list A) :
  List.length (Py.flatten_not_none (Py.zip_longest xs ys))
  = (List.length xs + List.length ys)%nat.
Proof.
  revert ys.
  induction xs as [|x xs IH]; intros [|y ys].
  - reflexivity.
  - change (Py.zip_longest [] (y :: ys))
      with ((@None A, Some y) :: map (fun y => (@None A, Some y)) ys).
    change (List.length
              (y :: Py.flatten_not_none (map (fun y => (@None A, Some y)) ys))
            = S (List.length ys)).
    now rewrite flatten_right_only.
  - rewrite zip_longest_nil_r, flatten_left_only. simpl. lia.
  - change (S (S (List.length (Py.flatten_not_none (Py.zip_longest xs ys))))
            = (S (List.length xs) + S (List.length ys))%nat).
    rewrite IH. lia.
Qed.

Lemma cumsum_from_length acc xs :
  List.length (Np.cumsum_from acc xs) = List.length xs.
Proof.
  revert acc.
  induction xs as [|x xs IH]; intros acc; simpl; [reflexivity|].
  now rewrite IH.
Qed.

Lemma cumsum_length xs : List.length (Np.cumsum xs) = List.length xs.
Proof.
  destruct xs as [|x xs]; simpl; [reflexivity|].
  now rewrite cumsum_from_length.
Qed.

Lemma drop_last_length {A} (xs : list A) :
  List.length (Py.drop_last xs) = (List.length xs - 1)%nat.
Proof.
  unfold Py.drop_last, Py.slice_indices, Py.clamp_index.
  change (-1 <? 0) with true. cbv iota.
  change (Z.to_nat 0) with 0%nat. rewrite skipn_O, length_firstn.
  lia.
Qed.

(** ** C10: the derived event structure *)

(** C10: for stimulus durations of length [n] and inter-stimulus times of
    length [n+1], interleaving them with [zip_longest] gives [2n+1] event
    durations, and the cumulative sums without the last one give [2n]
    event-change times; so both of the module's assertions hold. *)
Theorem event_structure_lengths :
  forall (stim_durations inter_stimulus_times : list Q) (n : nat),
    List.length stim_durations = n ->
    List.length inter_stimulus_times = S n ->
    List.length (DriftingGrating.derive_event_durations
                   inter_stimulus_times stim_durations) = (2 * n + 1)%nat
    /\ List.length (DriftingGrating.derive_event_change_times
                      inter_stimulus_times stim_durations) = (2 * n)%nat
    /\ DriftingGrating.quick_tests inter_stimulus_times stim_durations = true.
Proof.
  intros stim inter n Hs Hi.
  assert (Hd : List.length (DriftingGrating.derive_event_durations inter stim)
               = (2 * n + 1)%nat).
  { unfold DriftingGrating.derive_event_durations.
    rewrite interleave_length. lia. }
  assert (Hc : List.length (DriftingGrating.derive_event_change_times inter stim)
               = (2 * n)%nat).
  { unfold DriftingGrating.derive_event_change_times.
    rewrite drop_last_length, cumsum_length, Hd. lia. }
  repeat split; try assumption.
  unfold DriftingGrating.quick_tests.
  rewrite Hc, Hs, Hi.
  apply andb_true_intro; split; apply Z.eqb_eq; lia.
Qed.

Lemma event_structure_lengths_module :
  List.length DriftingGrating.event_durations = 9%nat
  /\ List.length DriftingGrating.event_change_times = 8%nat
  /\ DriftingGrating.quick_tests DriftingGrating.inter_stimulus_times
       DriftingGrating.stim_durations = true.
Proof.
  exact (event_structure_lengths DriftingGrating.stim_durations
           DriftingGrating.inter_stimulus_times 4 eq_refl eq_refl).
Defined.

(** ** C9: coordinate conversions *)


(** ** C7 and C6: the square-wave texture *)

Lemma to_uint8_levels (b : bool) :
  Np.to_uint8 (((if b then 1 else -1) + 1) * (255 # 2))%Q
  = if b then 255%Q else 0%Q.
Proof. destruct b; reflexivity. Qed.

Lemma square8bit_data first_half X freq :
  Np.data (DriftingGrating.square8bit first_half X freq)
  = map (fun x => if first_half (x * freq)%Q then 255%Q else 0%Q) (Np.data X).
Proof.
  unfold DriftingGrating.square8bit, DriftingGrating.squareWave,
    DriftingGrating.signal_square, Np.asarray_uint8, Np.map_float.
  cbn [Np.data]. rewrite !map_map.
  apply map_ext. intro x. apply to_uint8_levels.
Qed.

(** C7: [square8bit X freq] is a [uint8] array of the shape of [X] whose
    elements are all 0 or 255: 255 where the square wave is [+1] and 0
    where it is [-1]. *)
Theorem square8bit_levels :
  forall (first_half : Q -> bool) (X : Np.ndarray) (freq : Q),
    let r := DriftingGrating.square8bit first_half X freq in
    Np.dt r = Np.uint8
    /\ Np.shape r = Np.shape X
    /\ List.length (Np.data r) = List.length (Np.data X)
    /\ Forall (fun v => v = 0%Q \/ v = 255%Q) (Np.data r)
    /\ Forall2 (fun w v => (w = 1%Q /\ v = 255%Q) \/ (w = (-1)%Q /\ v = 0%Q))
         (Np.data (DriftingGrating.squareWave first_half X freq)) (Np.data r).
Proof.
  intros fh X freq r. subst r.
  split; [reflexivity|]. split; [reflexivity|].
  rewrite square8bit_data.
  split; [apply length_map|]. split.
  - apply Forall_forall. intros v Hv. apply in_map_iff in Hv.
    destruct Hv as [x [<- _]]. destruct (fh _); auto.
  - unfold DriftingGrating.squareWave, DriftingGrating.signal_square,
      Np.map_float. cbn [Np.data]. rewrite map_map.
    induction (Np.data X) as [|x xs IH]; simpl; constructor; [|exact IH].
    destruct (fh _); auto.
Qed.





(** ** C8: the binocular masks *)

Lemma nth_error_combine {A B} (xs : list A) (ys : list B) i x y :
  nth_error xs i = Some x -> nth_error ys i = Some y ->
  nth_error (combine xs ys) i = Some (x, y).
Proof.
  revert xs ys.
  induction i as [|i IH]; intros [|a xs] [|b ys]; simpl; intros Hx Hy;
    try discriminate.
  - congruence.
  - now apply IH.
Qed.

Lemma nth_error_indexed {A} (xs : list A) (i : nat) (x : A) :
  nth_error xs i = Some x ->
  nth_error (combine (seq 0 (List.length xs)) xs) i = Some (i, x).
Proof.
  intro H.
  assert (Hlt : (i < List.length xs)%nat)
    by (apply nth_error_Some; congruence).
  apply nth_error_combine; [|exact H].
  rewrite nth_error_nth' with (d := 0%nat) by (rewrite length_seq; exact Hlt).
  now rewrite seq_nth.
Qed.

Lemma getitem2_setitem_cols a start stop v nr nc r c x :
  Np.shape a = [nr; nc] ->
  Np.getitem2 a r c = Some x ->
  Np.getitem2 (Np.setitem_cols a start stop v) r c
  = Some (if Py.in_slice start stop (Z.of_nat nc) (Z.of_nat c) then v else x).
Proof.
  intros Hsh Hget. unfold Np.getitem2 in *.
  unfold Np.setitem_cols, Np.ncols. cbn [Np.shape Np.data].
  rewrite Hsh in *.
  destruct ((r <? nr)%nat && (c <? nc)%nat) eqn:Hrc; [|discriminate].
  apply andb_true_iff in Hrc. destruct Hrc as [_ Hc].
  apply Nat.ltb_lt in Hc.
  rewrite nth_error_map, (nth_error_indexed _ _ _ Hget). cbn [option_map fst snd].
  replace ((r * nc + c) mod nc)%nat with c; [reflexivity|].
  rewrite Nat.add_comm, Nat.Div0.mod_add. symmetry. now apply Nat.mod_small.
Qed.

Lemma getitem2_255_ones ts all_ones r c :
  Np.ones [ts; ts] Np.uint8 = Py.Ok all_ones ->
  Z.of_nat r < ts -> Z.of_nat c < ts ->
  Np.shape all_ones = [Z.to_nat ts; Z.to_nat ts]
  /\ Np.getitem2 (Np.scalar_mul_uint8 255 all_ones) r c = Some 255%Q.
Proof.
  intros Hones Hr Hc. unfold Np.ones in Hones.
  destruct (forallb _ _); [|discriminate].
  injection Hones as <-. cbn [Np.shape map]. split; [reflexivity|].
  unfold Np.getitem2, Np.scalar_mul_uint8. cbn [Np.shape Np.data map].
  assert (Hr' : (r < Z.to_nat ts)%nat) by lia.
  assert (Hc' : (c < Z.to_nat ts)%nat) by lia.
  apply Nat.ltb_lt in Hr', Hc'. rewrite Hr', Hc'. cbn [andb].
  apply Nat.ltb_lt in Hr', Hc'.
  rewrite nth_error_map.
  rewrite nth_error_repeat; [reflexivity|].
  unfold Np.size_of. cbn [fold_right]. nia.
Qed.

Lemma left_mask_pixel ts br m r c :
  0 <= br <= ts / 2 ->
  StimulusClasses.make_left_mask ts br = Py.Ok m ->
  Z.of_nat r < ts -> Z.of_nat c < ts ->
  Np.getitem2 m r c
  = Some (if Z.of_nat c <? ts / 2 - br then 255%Q else 0%Q).
Proof.
  intros Hbr Hm Hr Hc. unfold StimulusClasses.make_left_mask, rbind in Hm.
  destruct (Np.ones [ts; ts] Np.uint8) as [all_ones|e] eqn:Hones;
    [|discriminate].
  injection Hm as <-.
  destruct (getitem2_255_ones ts all_ones r c Hones Hr Hc) as [Hsh Hget].
  rewrite (getitem2_setitem_cols _ _ _ _ (Z.to_nat ts) (Z.to_nat ts) r c 255%Q);
    [|exact Hsh|exact Hget].
  f_equal.
  assert (Hhalf : ts / 2 <= ts)
    by (apply Z.div_le_upper_bound; lia).
  unfold Py.in_slice, Py.slice_indices, Py.clamp_index.
  destruct (ts / 2 - br <? 0) eqn:Hneg; [apply Z.ltb_lt in Hneg; lia|].
  destruct (Z.of_nat c <? ts / 2 - br) eqn:Hlt.
  - apply Z.ltb_lt in Hlt.
    replace (Z.min (ts / 2 - br) (Z.of_nat (Z.to_nat ts)) <=? Z.of_nat c)
      with false; [reflexivity|].
    symmetry. apply Z.leb_gt. lia.
  - apply Z.ltb_ge in Hlt.
    replace (Z.min (ts / 2 - br) (Z.of_nat (Z.to_nat ts)) <=? Z.of_nat c)
      with true by (symmetry; apply Z.leb_le; lia).
    replace (Z.of_nat c <? Z.of_nat (Z.to_nat ts)) with true
      by (symmetry; apply Z.ltb_lt; lia).
    reflexivity.
Qed.

Lemma right_mask_pixel ts br m r c :
  0 <= br <= ts / 2 ->
  StimulusClasses.make_right_mask ts br = Py.Ok m ->
  Z.of_nat r < ts -> Z.of_nat c < ts ->
  Np.getitem2 m r c
  = Some (if ts / 2 + br <=? Z.of_nat c then 255%Q else 0%Q).
Proof.
  intros Hbr Hm Hr Hc. unfold StimulusClasses.make_right_mask, rbind in Hm.
  destruct (Np.ones [ts; ts] Np.uint8) as [all_ones|e] eqn:Hones;
    [|discriminate].
  injection Hm as <-.
  destruct (getitem2_255_ones ts all_ones r c Hones Hr Hc) as [Hsh Hget].
  rewrite (getitem2_setitem_cols _ _ _ _ (Z.to_nat ts) (Z.to_nat ts) r c 255%Q);
    [|exact Hsh|exact Hget].
  f_equal.
  assert (Hhalf : ts / 2 + ts / 2 <= ts).
  { pose proof (Z.mul_div_le ts 2). lia. }
  unfold Py.in_slice, Py.slice_indices, Py.clamp_index.
  destruct (ts / 2 + br <? 0) eqn:Hneg; [apply Z.ltb_lt in Hneg; lia|].
  cbn [andb Z.leb]. change (0 <=? Z.of_nat c) with (Z.leb 0 (Z.of_nat c)).
  replace (0 <=? Z.of_nat c) with true by (symmetry; apply Z.leb_le; lia).
  cbn [andb].
  destruct (ts / 2 + br <=? Z.of_nat c) eqn:Hge.
  - apply Z.leb_le in Hge.
    replace (Z.of_nat c <? Z.min (ts / 2 + br) (Z.of_nat (Z.to_nat ts)))
      with false; [reflexivity|].
    symmetry. apply Z.ltb_ge. lia.
  - apply Z.leb_gt in Hge.
    replace (Z.of_nat c <? Z.min (ts / 2 + br) (Z.of_nat (Z.to_nat ts)))
      with true; [reflexivity|].
    symmetry. apply Z.ltb_lt. lia.
Qed.

Lemma BinocularDrift_init_masks ta sa ma pos vel br ws ts obj :
  StimulusClasses.BinocularDrift_init ta sa ma pos vel br ws ts = Py.Ok obj ->
  StimulusClasses.make_left_mask ts br
  = Py.Ok (StimulusClasses.left_mask_array obj)
  /\ StimulusClasses.make_right_mask ts br
     = Py.Ok (StimulusClasses.right_mask_array obj).
Proof.
  unfold StimulusClasses.BinocularDrift_init, rbind. intro H.
  destruct (Np.flat0_type ta); [|discriminate].
  destruct (StimulusClasses.make_left_mask ts br); [|discriminate].
  destruct (StimulusClasses.make_right_mask ts br); [|discriminate].
  destruct (StimulusClasses.setup_texture _ _ _ _); [|discriminate].
  injection H as <-. split; reflexivity.
Qed.

(** C8: for [texture_size > 0] and [0 <= band_radius <= texture_size//2],
    the masks of a [BinocularDrift] are 255 exactly left of column
    [texture_size//2 - band_radius] (left mask) and exactly from column
    [texture_size//2 + band_radius] on (right mask), and 0 elsewhere; no
    pixel is 255 in both, and the band between the two columns is 0 in
    both. *)
Theorem binocular_masks :
  forall texture_array stim_angles mask_angle position velocities
         band_radius window_size texture_size obj,
    0 < texture_size ->
    0 <= band_radius <= texture_size / 2 ->
    StimulusClasses.BinocularDrift_init texture_array stim_angles mask_angle
      position velocities band_radius window_size texture_size = Py.Ok obj ->
    forall r c : nat,
      Z.of_nat r < texture_size -> Z.of_nat c < texture_size ->
      exists l rt : Q,
        Np.getitem2 (StimulusClasses.left_mask_array obj) r c = Some l
        /\ Np.getitem2 (StimulusClasses.right_mask_array obj) r c = Some rt
        /\ (l = 255%Q <-> Z.of_nat c < texture_size / 2 - band_radius)
        /\ (l = 0%Q <-> ~ Z.of_nat c < texture_size / 2 - band_radius)
        /\ (rt = 255%Q <-> texture_size / 2 + band_radius <= Z.of_nat c)
        /\ (rt = 0%Q <-> ~ texture_size / 2 + band_radius <= Z.of_nat c)
        /\ ~ (l = 255%Q /\ rt = 255%Q)
        /\ (texture_size / 2 - band_radius <= Z.of_nat c
              < texture_size / 2 + band_radius ->
            l = 0%Q /\ rt = 0%Q).
Proof.
  intros ta sa ma pos vel br ws ts obj Hts Hbr Hinit r c Hr Hc.
  destruct (BinocularDrift_init_masks _ _ _ _ _ _ _ _ _ Hinit) as [Hl Hrt].
  pose proof (left_mask_pixel ts br _ r c Hbr Hl Hr Hc) as Hlp.
  pose proof (right_mask_pixel ts br _ r c Hbr Hrt Hr Hc) as Hrp.
  eexists; eexists. split; [exact Hlp|]. split; [exact Hrp|].
  destruct (Z.of_nat c <? ts / 2 - br) eqn:Hlt;
    [apply Z.ltb_lt in Hlt|apply Z.ltb_ge in Hlt];
    (destruct (ts / 2 + br <=? Z.of_nat c) eqn:Hge;
     [apply Z.leb_le in Hge|apply Z.leb_gt in Hge]);
    repeat split; intros; try lia; try reflexivity; try congruence;
    try (intros [? ?]; congruence).
Qed.

Lemma binocular_masks_witness :
  match Sample.binocular with
  | Py.Ok obj =>
      exists l rt : Q,
        Np.getitem2 (StimulusClasses.left_mask_array obj) 0 2 = Some l
        /\ Np.getitem2 (StimulusClasses.right_mask_array obj) 0 2 = Some rt
        /\ (l = 255%Q <-> Z.of_nat 2 < 8 / 2 - 1)
        /\ (l = 0%Q <-> ~ Z.of_nat 2 < 8 / 2 - 1)
        /\ (rt = 255%Q <-> 8 / 2 + 1 <= Z.of_nat 2)
        /\ (rt = 0%Q <-> ~ 8 / 2 + 1 <= Z.of_nat 2)
        /\ ~ (l = 255%Q /\ rt = 255%Q)
        /\ (8 / 2 - 1 <= Z.of_nat 2 < 8 / 2 + 1 -> l = 0%Q /\ rt = 0%Q)
  | Py.Raise _ => False
  end.
Proof.
  destruct Sample.binocular as [obj|e] eqn:H.
  - unfold Sample.binocular in H.
    apply (binocular_masks _ _ _ _ _ 1 8 8 obj ltac:(lia)
             ltac:(vm_compute; split; discriminate) H 0%nat 2%nat); lia.
  - vm_compute in H. discriminate.
Defined.

(** ** C3 and C4: validation of texture arrays *)

Ltac eff_unfold :=
  unfold Eff.bind, Eff.gets, Eff.modify, Eff.index, Eff.raise, Eff.ret,
    Eff.lift, Eff.getattr.

Section ExperimentFacts.
Import StimulusClasses.
Variable kwargs : Type.
Variable texture_function : kwargs -> Np.ndarray.
Variable event_change_times : list Q.
Variable texture_size : Z.

Local Abbreviation State := (FullFieldDriftExperiment kwargs).
Local Abbreviation show := (show_stimulus texture_function texture_size).
Local Abbreviation set_task :=
  (set_texture_task texture_function event_change_times texture_size).

(** What [show_stimulus] does, by the texture array it is given. *)
Lemma show_stimulus_cases (s : State) e p :
  Py.getitem (events s) (current_event_num s) = Some e ->
  Py.getitem (stim_params s) e = Some p ->
  let a := texture_function (sp_kwargs p) in
  match Np.flat0_type a with
  | Py.Raise ex => show s = (s, Py.Raise ex)
  | Py.Ok d =>
      if supported d then
        if (Np.ndim a =? 2) || (Np.ndim a =? 3) then
          exists s', show s = (s', Py.Ok tt)
                     /\ current_event_num s' = current_event_num s
                     /\ events s' = events s
        else show s = (set_texture kwargs (Panda.new_texture "stim_texture") s,
                       Py.Raise (Py.ValueError dims_rgb_msg))
      else show s = (set_texture kwargs (Panda.new_texture "stim_texture") s,
                     Py.Raise (Py.ValueError dtype_msg))
  end.
Proof.
  intros He Hp a. subst a.
  unfold show_stimulus, current_stim_params, current_event_ind. eff_unfold.
  rewrite He, Hp.
  destruct (Np.flat0_type (texture_function (sp_kwargs p))) as [d|ex];
    [|reflexivity].
  unfold supported.
  destruct (Np.dtype_eqb d Np.uint8); cbn [orb].
  - destruct (Np.ndim _ =? 2); cbn [orb].
    + cbn. rewrite He, Hp. cbn. rewrite He. eexists. repeat split.
    + destruct (Np.ndim _ =? 3).
      * cbn. rewrite He, Hp. cbn. rewrite He. eexists. repeat split.
      * reflexivity.
  - destruct (Np.dtype_eqb d Np.uint16).
    + destruct (Np.ndim _ =? 2); cbn [orb].
      * cbn. rewrite He, Hp. cbn. rewrite He. eexists. repeat split.
      * destruct (Np.ndim _ =? 3).
        -- cbn. rewrite He, Hp. cbn. rewrite He. eexists. repeat split.
        -- reflexivity.
    + reflexivity.
Qed.

(** When the call moves on to a stimulus, it is the index bump followed
    by [show_stimulus]. *)
Lemma set_texture_task_starts (s : State) time p :
  starts_stimulus event_change_times s time p ->
  let s1 := set_current_event_num (current_event_num s + 1) s in
  (exists e, Py.getitem (events s1) (current_event_num s1) = Some e
             /\ Py.getitem (stim_params s1) e = Some p)
  /\ set_task time s
     = match show s1 with
       | (s2, Py.Ok _) => (s2, Py.Ok Panda.cont)
       | (s2, Py.Raise ex) => (s2, Py.Raise ex)
       end.
Proof.
  intros (last & c & e & Hlast & Htl & Hc & Hct & He & Hne & Hp) s1.
  split; [exists e; split; assumption|].
  subst s1. unfold set_texture_task, current_event_ind.
  eff_unfold. rewrite Hlast.
  apply Qle_bool_iff in Htl, Hct. rewrite Htl, Hc, Hct.
  cbn [events current_event_num set_current_event_num]. rewrite He.
  apply Z.eqb_neq in Hne. rewrite Hne.
  destruct (show_stimulus _ _ _) as [s2 [[]|ex]]; reflexivity.
Qed.
End ExperimentFacts.

Lemma flat0_type_cases (a : Np.ndarray) :
  (Np.size_of (Np.shape a) = 0%nat /\ Np.flat0_type a = Py.Raise Py.IndexError)
  \/ (Np.size_of (Np.shape a) <> 0%nat /\ Np.flat0_type a = Py.Ok (Np.dt a)).
Proof.
  unfold Np.flat0_type. destruct (Np.size_of (Np.shape a)); [left|right]; auto.
Qed.

Lemma unsupported_no_component_type d :
  StimulusClasses.supported d = false ->
  StimulusClasses.select_component_type d = None.
Proof.
  unfold StimulusClasses.supported, StimulusClasses.select_component_type.
  intro H. apply orb_false_iff in H. destruct H as [-> ->]. reflexivity.
Qed.


Lemma supported_false d :
  d <> Np.uint8 -> d <> Np.uint16 -> StimulusClasses.supported d = false.
Proof. destruct d; intros H8 H16; try reflexivity; congruence. Qed.

(** Without a component type the texture set-up fails on every path. *)
Lemma setup_texture_unset a ndims ts :
  exists e, StimulusClasses.setup_texture a ndims None ts = Py.Raise e.
Proof.
  unfold StimulusClasses.setup_texture.
  destruct (ndims =? 2); [cbn; eauto|].
  destruct (ndims =? 3); cbn; eauto.
Qed.



Lemma make_mask_cases ts br :
  (exists l r, StimulusClasses.make_left_mask ts br = Py.Ok l
               /\ StimulusClasses.make_right_mask ts br = Py.Ok r
               /\ 0 <= ts)
  \/ (exists msg,
        StimulusClasses.make_left_mask ts br = Py.Raise (Py.ValueError msg)
        /\ msg <> StimulusClasses.dims_msg /\ ts < 0).
Proof.
  unfold StimulusClasses.make_left_mask, StimulusClasses.make_right_mask,
    Np.ones, rbind. cbn [forallb].
  destruct (0 <=? ts) eqn:Hts; cbn [andb].
  - left. apply Z.leb_le in Hts. eauto.
  - right. apply Z.leb_gt in Hts. eexists. split; [reflexivity|].
    split; [discriminate|assumption].
Qed.

(** C3: a texture array whose elements are neither [uint8] nor [uint16]
    makes [FullFieldDrift.__init__], [BinocularDrift.__init__] and the
    call of [set_texture_task] that is given it raise instead of going on;
    in [set_texture_task] the exception is the [ValueError] about the
    element type whenever the array has an element to look at. *)
Theorem unsupported_dtype_raises :
  forall texture_array : Np.ndarray,
    Np.dt texture_array <> Np.uint8 ->
    Np.dt texture_array <> Np.uint16 ->
    (forall angle velocity window_size texture_size,
        exists e,
          StimulusClasses.FullFieldDrift_init texture_array angle velocity
            window_size texture_size = Py.Raise e)
    /\ (forall stim_angles mask_angle position velocities band_radius
               window_size texture_size,
           exists e,
             StimulusClasses.BinocularDrift_init texture_array stim_angles
               mask_angle position velocities band_radius window_size
               texture_size = Py.Raise e)
    /\ (forall kwargs (texture_function : kwargs -> Np.ndarray)
               event_change_times texture_size s time p,
           StimulusClasses.starts_stimulus event_change_times s time p ->
           texture_function (StimulusClasses.sp_kwargs p) = texture_array ->
           exists s' e,
             StimulusClasses.set_texture_task texture_function
               event_change_times texture_size time s = (s', Py.Raise e)
             /\ (Np.size_of (Np.shape texture_array) <> 0%nat ->
                 e = Py.ValueError StimulusClasses.dtype_msg)).
Proof.
  intros a H8 H16.
  pose proof (supported_false _ H8 H16) as Hsup.
  pose proof (unsupported_no_component_type _ Hsup) as Hsel.
  split; [|split].
  - intros angle velocity ws ts. unfold StimulusClasses.FullFieldDrift_init.
    destruct (flat0_type_cases a) as [[_ ->] | [_ ->]]; cbn [rbind]; [eauto|].
    rewrite Hsel.
    destruct (setup_texture_unset a (Np.ndim a) ts) as [e ->]. cbn. eauto.
  - intros sa ma pos vel br ws ts. unfold StimulusClasses.BinocularDrift_init.
    destruct (flat0_type_cases a) as [[_ ->] | [_ ->]]; cbn [rbind]; [eauto|].
    destruct (make_mask_cases ts br) as [(l & r & -> & -> & _) | (msg & -> & _)];
      cbn [rbind]; [|eauto].
    rewrite Hsel.
    destruct (setup_texture_unset a (Np.ndim a) ts) as [e ->]. cbn. eauto.
  - intros kwargs tf ect ts s time p Hstart Htf.
    destruct (set_texture_task_starts kwargs tf ect ts s time p Hstart)
      as [(e & He & Hp) ->].
    pose proof (show_stimulus_cases kwargs tf ts _ e p He Hp) as Hshow.
    cbv zeta in Hshow. rewrite Htf in Hshow.
    destruct (flat0_type_cases a) as [[Hz Hf] | [Hnz Hf]]; rewrite Hf in Hshow.
    + rewrite Hshow. eexists; eexists. split; [reflexivity|]. congruence.
    + rewrite Hsup in Hshow. rewrite Hshow. eauto.
Qed.

Lemma main_starts_stimulus :
  StimulusClasses.starts_stimulus StimulusClasses.Main.event_change_times
    StimulusClasses.Main.exp_app 2
    (StimulusClasses.mk_StimParams 90 (5 # 100)
       (5%Q, StimulusClasses.Main.texture_size)).
Proof.
  exists 26%Q, 2%Q, 2.
  repeat split; try reflexivity; try discriminate.
Defined.

Lemma unsupported_dtype_raises_witness :
  (exists e,
      StimulusClasses.FullFieldDrift_init Sample.gray_float64 0 (1 # 10)
        512 512 = Py.Raise e)
  /\ (exists e,
         StimulusClasses.BinocularDrift_init Sample.gray_float64 (0, 0)%Q 0
           (0, 0)%Q (0, 0)%Q 2 512 512 = Py.Raise e)
  /\ (exists s' e,
         StimulusClasses.set_texture_task
           (Sample.constant_texture Sample.gray_float64)
           StimulusClasses.Main.event_change_times
           StimulusClasses.Main.texture_size 2 StimulusClasses.Main.exp_app
         = (s', Py.Raise e)
         /\ (Np.size_of (Np.shape Sample.gray_float64) <> 0%nat ->
             e = Py.ValueError StimulusClasses.dtype_msg)).
Proof.
  destruct (unsupported_dtype_raises Sample.gray_float64
              ltac:(discriminate) ltac:(discriminate)) as (H1 & H2 & H3).
  split; [apply H1|]. split; [apply H2|].
  apply (H3 _ _ _ _ _ _ _ main_starts_stimulus). reflexivity.
Defined.




(** ** The event timeline of [MyApp] *)

#[local] Arguments Py.getitem : simpl never.
#[local] Arguments Qle_bool : simpl never.

Ltac eff_cases :=
  repeat (cbn;
          match goal with
          | |- context [Py.getitem ?l ?i] => destruct (Py.getitem l i) eqn:?
          | |- context [if ?b then _ else _] => destruct b eqn:?
          end);
  cbn.

Section AppFacts.
Import DriftingGrating.
Variable bgcolor : Panda.rgba.
Variables angles shift_velocities event_change_times : list Q.

Local Abbreviation task :=
  (moveTextureTask bgcolor angles shift_velocities event_change_times).

(** Below the change time nothing of the timeline state changes. *)
Lemma task_no_change (s : MyApp) (t c : Q) :
  Py.getitem event_change_times (event_change_num s) = Some c ->
  Qle_bool c t = false ->
  event_change_num (fst (task t s)) = event_change_num s
  /\ baseline_stim (fst (task t s)) = baseline_stim s
  /\ stim_num (fst (task t s)) = stim_num s.
Proof.
  intros Hc Hlt. unfold moveTextureTask. eff_unfold.
  rewrite Hc, Hlt. destruct s as [n k b ws wt gt cd out].
  eff_cases; auto.
Qed.

(** At or after the change time, with the index in range, the index
    moves on by one and the state toggles. *)
Lemma task_advance (s : MyApp) (t c : Q) :
  Py.getitem event_change_times (event_change_num s) = Some c ->
  Qle_bool c t = true ->
  event_change_num s < num_event_changes event_change_times ->
  (baseline_stim s = true ->
   exists a, Py.getitem angles (stim_num s + 1) = Some a) ->
  event_change_num (fst (task t s)) = event_change_num s + 1
  /\ baseline_stim (fst (task t s)) = negb (baseline_stim s)
  /\ stim_num (fst (task t s))
     = (if baseline_stim s then stim_num s + 1 else stim_num s).
Proof.
  intros Hc Hle Hn Ha. unfold moveTextureTask. eff_unfold.
  rewrite Hc, Hle. apply Z.ltb_lt in Hn.
  destruct s as [n k b ws wt gt cd out]. cbn in *. rewrite Hn.
  destruct b; cbn.
  - destruct (Ha eq_refl) as [a ->]. eff_cases; auto.
  - eff_cases; auto.
Qed.

(** The index never goes down, and goes up only at a change time. *)
Lemma task_index_step (s : MyApp) (t : Q) :
  index_step_ok MyApp event_change_num (fun _ => event_change_times)
                s t (fst (task t s)).
Proof.
  unfold index_step_ok. unfold moveTextureTask. eff_unfold.
  destruct s as [n k b ws wt gt cd out]. cbn.
  destruct (Py.getitem event_change_times n) as [c|] eqn:Hc; cbn;
    [|split; lia].
  destruct (Qle_bool c t) eqn:Hle.
  - assert (Hex : exists c0, Some c = Some c0 /\ (c0 <= t)%Q)
      by (exists c; split; [reflexivity|now apply Qle_bool_iff]).
    eff_cases; split; (lia || (intros _; exact Hex)).
  - eff_cases; split; lia.
Qed.

(** With the index in range the task ends by the clock alone. *)
Lemma task_status_by_clock (s : MyApp) (t c last : Q) :
  Py.getitem event_change_times (event_change_num s) = Some c ->
  Py.getitem event_change_times (-1) = Some last ->
  snd (task t s) <> Py.Raise Py.IndexError ->
  (Qle_bool t last = true -> snd (task t s) = Py.Ok Panda.cont)
  /\ (Qle_bool t last = false ->
      snd (task t s) = Py.Ok Panda.done
      /\ windowProps_title (fst (task t s)) = "Full field: done").
Proof.
  intros Hc Hlast. unfold moveTextureTask. eff_unfold.
  rewrite Hc, Hlast. destruct s as [n k b ws wt gt cd out].
  eff_cases; intro Hr; split; intro; try discriminate; try congruence; auto.
Qed.
End AppFacts.

(** ** The event timeline of [FullFieldDriftExperiment] *)

Ltac eff_cases' :=
  repeat (cbn;
          match goal with
          | |- context [Py.getitem ?l ?i] => destruct (Py.getitem l i) eqn:?
          | |- context [Np.flat0_type ?a] => destruct (Np.flat0_type a) eqn:?
          | |- context [if ?b then _ else _] => destruct b eqn:?
          | |- context [match ?x with _ => _ end] => is_var x; destruct x eqn:?
          end);
  cbn.

Section ExperimentTimeline.
Import StimulusClasses.
Variable kwargs : Type.
Variable texture_function : kwargs -> Np.ndarray.
Variable event_change_times : list Q.
Variable texture_size : Z.

Local Abbreviation State := (FullFieldDriftExperiment kwargs).
Local Abbreviation set_task :=
  (set_texture_task texture_function event_change_times texture_size).
Local Abbreviation move_task := (@move_texture_task kwargs event_change_times).

Ltac open_tasks :=
  unfold set_texture_task, move_texture_task, show_stimulus, show_baseline,
    current_stim_params, current_event_ind;
  eff_unfold.

(** After the last change time the task is done and touches nothing. *)
Lemma set_task_late (s : State) (t last : Q) :
  Py.getitem event_change_times (-1) = Some last ->
  Qle_bool t last = false ->
  set_task t s = (s, Py.Ok Panda.done).
Proof.
  intros Hlast Hlate. open_tasks. now rewrite Hlast, Hlate.
Qed.

(** Below the change time at the current index nothing changes. *)
Lemma set_task_early (s : State) (t c : Q) :
  Py.getitem (self_event_change_times s) (current_event_num s) = Some c ->
  Qle_bool c t = false ->
  fst (set_task t s) = s.
Proof.
  intros Hc Hearly. open_tasks.
  destruct (Py.getitem event_change_times (-1)) as [last|]; [|reflexivity].
  destruct (Qle_bool t last); [|reflexivity].
  now rewrite Hc, Hearly.
Qed.

(** What is shown changes neither the index nor the timeline. *)
Lemma show_keeps_timeline (s0 : State) :
  (forall s : State,
      current_event_num (fst (show_stimulus texture_function texture_size s))
      = current_event_num s
      /\ same_timeline s
           (fst (show_stimulus texture_function texture_size s)))
  /\ (forall s : State,
         current_event_num (fst (show_baseline s)) = current_event_num s
         /\ same_timeline s (fst (show_baseline s)))
  /\ current_event_num (fst (current_event_ind s0)) = current_event_num s0
     /\ same_timeline s0 (fst (current_event_ind s0)).
Proof.
  unfold same_timeline. split; [|split].
  - intros s. unfold show_stimulus, current_stim_params, current_event_ind.
    eff_unfold.
    destruct s as [ev ect ed n ne sp sts ws bg wt cd tx tsg out].
    eff_cases'; auto.
  - intros s. unfold show_baseline. eff_unfold.
    destruct s as [ev ect ed n ne sp sts ws bg wt cd tx tsg out].
    eff_cases'; auto.
  - unfold current_event_ind. eff_unfold.
    destruct (Py.getitem (events s0) (current_event_num s0)); cbn; auto.
Qed.

(** Within the run and at or after the change time, the index moves on
    by one. *)
Lemma set_task_advance (s : State) (t c last : Q) :
  Py.getitem event_change_times (-1) = Some last ->
  Qle_bool t last = true ->
  Py.getitem (self_event_change_times s) (current_event_num s) = Some c ->
  Qle_bool c t = true ->
  current_event_num (fst (set_task t s)) = current_event_num s + 1
  /\ same_timeline s (fst (set_task t s)).
Proof.
  intros Hlast Hin Hc Hle.
  enough (H : forall s', s' = fst (set_task t s) ->
                         current_event_num s' = current_event_num s + 1
                         /\ same_timeline s s')
    by (apply H; reflexivity).
  intros s' Hs'. revert Hs'.
  unfold set_texture_task. eff_unfold.
  rewrite Hlast, Hin, Hc, Hle.
  set (s1 := set_current_event_num (current_event_num s + 1) s).
  assert (Hs1 : current_event_num s1 = current_event_num s + 1
                /\ same_timeline s s1) by (repeat split).
  destruct Hs1 as (Hi1 & Hev1 & Hect1 & Hsp1).
  destruct (show_keeps_timeline s1) as (Hst & Hbl & Hind).
  destruct (current_event_ind s1) as [s2 [e|ex]] eqn:He;
    cbn [fst snd] in Hind; destruct Hind as (Hi2 & Hev2 & Hect2 & Hsp2).
  - specialize (Hst s2). specialize (Hbl s2).
    destruct (e =? -1).
    + destruct (show_baseline s2) as [s3 [u|ex]];
        cbn [fst snd] in *; destruct Hbl as (Hi3 & Hev3 & Hect3 & Hsp3);
        intros ->; unfold same_timeline; repeat split; congruence.
    + destruct (show_stimulus texture_function texture_size s2)
        as [s3 [u|ex]];
        cbn [fst snd] in *; destruct Hst as (Hi3 & Hev3 & Hect3 & Hsp3);
        intros ->; unfold same_timeline; repeat split; congruence.
  - cbn [fst snd]. intros ->. unfold same_timeline. repeat split; congruence.
Qed.

(** The index never goes down, and goes up only at a change time. *)
Lemma set_task_index_step (s : State) (t : Q) :
  index_step_ok State current_event_num self_event_change_times
                s t (fst (set_task t s))
  /\ same_timeline s (fst (set_task t s)).
Proof.
  unfold index_step_ok.
  destruct (Py.getitem event_change_times (-1)) as [last|] eqn:Hlast.
  2:{ open_tasks. rewrite Hlast. cbn. unfold same_timeline.
      repeat split; lia. }
  destruct (Qle_bool t last) eqn:Hin.
  2:{ rewrite (set_task_late s t last Hlast Hin). cbn. unfold same_timeline.
      repeat split; lia. }
  destruct (Py.getitem (self_event_change_times s) (current_event_num s))
    as [c|] eqn:Hc.
  2:{ open_tasks. rewrite Hlast, Hin, Hc. cbn. unfold same_timeline.
      repeat split; lia. }
  destruct (Qle_bool c t) eqn:Hle.
  - destruct (set_task_advance s t c last Hlast Hin Hc Hle) as [-> Hsame].
    split; [|exact Hsame]. split; [lia|].
    intros _. exists c. split; [reflexivity|now apply Qle_bool_iff].
  - rewrite (set_task_early s t c Hc Hle). unfold same_timeline.
    repeat split; lia.
Qed.

(** [move_texture_task] leaves the index and the timeline alone. *)
Lemma move_task_index (s : State) (t : Q) :
  current_event_num (fst (move_task t s)) = current_event_num s
  /\ same_timeline s (fst (move_task t s)).
Proof.
  unfold same_timeline. open_tasks.
  destruct s as [ev ect ed n ne sp sts ws bg wt cd tx tsg out].
  eff_cases'; auto.
Qed.
End ExperimentTimeline.

(** ** States of the drifting-grating application *)

Lemma getitem_Some_range {A} (xs : list A) i x :
  Py.getitem xs i = Some x ->
  - Z.of_nat (List.length xs) <= i < Z.of_nat (List.length xs).
Proof.
  unfold Py.getitem.
  destruct ((0 <=? i) && (i <? Z.of_nat (List.length xs))) eqn:H1.
  - apply andb_true_iff in H1. destruct H1 as [H0 Hn].
    apply Z.leb_le in H0. apply Z.ltb_lt in Hn. lia.
  - destruct ((- Z.of_nat (List.length xs) <=? i) && (i <? 0)) eqn:H2;
      [|discriminate].
    apply andb_true_iff in H2. destruct H2 as [H0 Hn].
    apply Z.leb_le in H0. apply Z.ltb_lt in Hn. lia.
Qed.

Lemma module_angles_defined j :
  0 <= j < 4 -> exists a, Py.getitem DriftingGrating.angles j = Some a.
Proof.
  intro Hj.
  assert (Hcases : j = 0 \/ j = 1 \/ j = 2 \/ j = 3) by lia.
  destruct Hcases as [-> | [-> | [-> | ->]]]; eexists; reflexivity.
Qed.

Lemma module_velocities_defined j :
  0 <= j < 4 ->
  exists v, Py.getitem DriftingGrating.shift_velocities j = Some v.
Proof.
  intro Hj.
  assert (Hcases : j = 0 \/ j = 1 \/ j = 2 \/ j = 3) by lia.
  destruct Hcases as [-> | [-> | [-> | ->]]]; eexists; reflexivity.
Qed.

(** In every state the task manager calls the task in, the event-change
    index is twice the number of stimuli begun, less one while a stimulus
    is on show. *)
Lemma app_reachable_inv gratingTex s :
  DriftingGrating.app_reachable gratingTex s ->
  0 <= DriftingGrating.event_change_num s <= 8
  /\ ((DriftingGrating.baseline_stim s = true
       /\ DriftingGrating.event_change_num s
          = 2 * (DriftingGrating.stim_num s + 1))
      \/ (DriftingGrating.baseline_stim s = false
          /\ DriftingGrating.event_change_num s
             = 2 * DriftingGrating.stim_num s + 1)).
Proof.
  unfold DriftingGrating.app_reachable.
  induction 1 as [s Hinit | s t s' Hreach IH Hstep].
  - vm_compute in Hinit. injection Hinit as <-. cbn.
    split; [lia|]. left. split; [reflexivity|lia].
  - destruct IH as (Hrange & Hinv).
    destruct (Py.getitem DriftingGrating.event_change_times
                (DriftingGrating.event_change_num s)) as [c|] eqn:Hc.
    2:{ exfalso. revert Hstep. unfold DriftingGrating.moveTextureTask.
        eff_unfold. rewrite Hc. discriminate. }
    assert (Hlt : DriftingGrating.event_change_num s < 8).
    { apply getitem_Some_range in Hc. change (Z.of_nat _) with 8 in Hc. lia. }
    assert (Hs' : s' = fst (DriftingGrating.moveTextureTask
                              DriftingGrating.bgcolor DriftingGrating.angles
                              DriftingGrating.shift_velocities
                              DriftingGrating.event_change_times t s))
      by now rewrite Hstep.
    destruct (Qle_bool c t) eqn:Hle.
    + destruct (task_advance DriftingGrating.bgcolor DriftingGrating.angles
                  DriftingGrating.shift_velocities
                  DriftingGrating.event_change_times s t c Hc Hle)
        as (Hi & Hb & Hk).
      * exact Hlt.
      * intros Hbase. apply module_angles_defined.
        destruct Hinv as [[_ Hidx] | [Hfalse _]]; [lia|congruence].
      * rewrite <- Hs' in Hi, Hb, Hk. rewrite Hi, Hb, Hk.
        split; [lia|].
        destruct Hinv as [[-> Hidx] | [-> Hidx]]; cbn [negb]; [right|left];
          (split; [reflexivity|lia]).
    + destruct (task_no_change DriftingGrating.bgcolor DriftingGrating.angles
                  DriftingGrating.shift_velocities
                  DriftingGrating.event_change_times s t c Hc Hle)
        as (Hi & Hb & Hk).
      rewrite <- Hs' in Hi, Hb, Hk. rewrite Hi, Hb, Hk. auto.
Qed.

Section AppReturns.
Import DriftingGrating.
Variable bgcolor : Panda.rgba.
Variables angles shift_velocities event_change_times : list Q.

(** The call returns when the entries it looks up exist. *)
Lemma task_returns (s : MyApp) (t c last : Q) :
  Py.getitem event_change_times (event_change_num s) = Some c ->
  Py.getitem event_change_times (-1) = Some last ->
  (baseline_stim s = true ->
   (exists a, Py.getitem angles (stim_num s + 1) = Some a)
   /\ (exists v, Py.getitem shift_velocities (stim_num s + 1) = Some v)) ->
  (baseline_stim s = false ->
   exists v, Py.getitem shift_velocities (stim_num s) = Some v) ->
  exists r,
    snd (moveTextureTask bgcolor angles shift_velocities event_change_times
                         t s) = Py.Ok r.
Proof.
  intros Hc Hlast Htrue Hfalse. unfold moveTextureTask. eff_unfold.
  rewrite Hc, Hlast. destruct s as [n k b ws wt gt cd out]. cbn in *.
  destruct b.
  - destruct (Htrue eq_refl) as [[a Ha] [v Hv]].
    eff_cases; eauto; congruence.
  - destruct (Hfalse eq_refl) as [v Hv]. eff_cases; eauto; congruence.
Qed.
End AppReturns.

(** ** C1: the event-timeline stepper *)

(** C1, amended: in [MyApp.moveTextureTask], when the elapsed time has
    reached the change time at the current index (the index being in
    range), the call returns with the index one higher and the
    baseline/stimulus flag toggled; below that change time both are
    unchanged.  In [FullFieldDriftExperiment.set_texture_task] the same
    advance happens only while the elapsed time is also at most the last
    change time, and the event on show becomes the next entry of the
    event list, which toggles baseline and stimulus when the two entries
    are of opposite kinds; below the change time, and after the last
    change time, the call changes nothing (after the last change time it
    returns [task.done]). *)
Theorem event_stepper :
  (forall gratingTex s t c,
      DriftingGrating.app_reachable gratingTex s ->
      Py.getitem DriftingGrating.event_change_times
        (DriftingGrating.event_change_num s) = Some c ->
      0 <= DriftingGrating.event_change_num s
        < DriftingGrating.num_event_changes DriftingGrating.event_change_times ->
      let s' := fst (DriftingGrating.app_task t s) in
      ((c <= t)%Q ->
       DriftingGrating.event_change_num s'
       = DriftingGrating.event_change_num s + 1
       /\ DriftingGrating.baseline_stim s'
          = negb (DriftingGrating.baseline_stim s)
       /\ exists r, snd (DriftingGrating.app_task t s) = Py.Ok r)
      /\ ((t < c)%Q ->
          DriftingGrating.event_change_num s'
          = DriftingGrating.event_change_num s
          /\ DriftingGrating.baseline_stim s'
             = DriftingGrating.baseline_stim s))
  /\ (forall kwargs (texture_function : kwargs -> Np.ndarray)
             event_change_times texture_size s t c,
         Py.getitem (StimulusClasses.self_event_change_times s)
           (StimulusClasses.current_event_num s) = Some c ->
         let call := StimulusClasses.set_texture_task texture_function
                       event_change_times texture_size t s in
         (forall last next,
             Py.getitem event_change_times (-1) = Some last ->
             (c <= t)%Q -> (t <= last)%Q ->
             Py.getitem (StimulusClasses.events s)
               (StimulusClasses.current_event_num s + 1) = Some next ->
             StimulusClasses.current_event_num (fst call)
             = StimulusClasses.current_event_num s + 1
             /\ StimulusClasses.on_baseline (fst call) = Some (next =? -1)
             /\ (StimulusClasses.on_baseline s = Some (negb (next =? -1)) ->
                 StimulusClasses.on_baseline (fst call)
                 = option_map negb (StimulusClasses.on_baseline s)))
         /\ ((t < c)%Q -> fst call = s)
         /\ (forall last,
                Py.getitem event_change_times (-1) = Some last ->
                (last < t)%Q -> call = (s, Py.Ok Panda.done))).
Proof.
  split.
  - intros gratingTex s t c Hreach Hc Hrange s'.
    destruct (app_reachable_inv gratingTex s Hreach) as (_ & Hinv).
    assert (Hlt8 : DriftingGrating.event_change_num s < 8)
      by (change (DriftingGrating.num_event_changes _) with 8 in Hrange; lia).
    split.
    + intro Hle. apply Qle_bool_iff in Hle.
      destruct (task_advance DriftingGrating.bgcolor DriftingGrating.angles
                  DriftingGrating.shift_velocities
                  DriftingGrating.event_change_times s t c Hc Hle)
        as (Hi & Hb & _).
      * apply Hrange.
      * intros Hbase. apply module_angles_defined.
        destruct Hinv as [[_ Hidx] | [Hfalse _]]; [lia|congruence].
      * split; [exact Hi|]. split; [exact Hb|].
        apply (task_returns _ _ _ _ s t c (63 # 2)%Q Hc); [reflexivity| |].
        -- intros Hbase.
           destruct Hinv as [[_ Hidx] | [Hfalse _]]; [|congruence].
           split; [apply module_angles_defined
                  |apply module_velocities_defined]; lia.
        -- intros Hbase.
           destruct Hinv as [[Htrue _] | [_ Hidx]]; [congruence|].
           apply module_velocities_defined; lia.
    + intro Hlt.
      assert (Hnle : Qle_bool c t = false).
      { destruct (Qle_bool c t) eqn:E; [|reflexivity].
        apply Qle_bool_iff in E. exfalso. apply (Qlt_not_le _ _ Hlt E). }
      destruct (task_no_change DriftingGrating.bgcolor DriftingGrating.angles
                  DriftingGrating.shift_velocities
                  DriftingGrating.event_change_times s t c Hc Hnle)
        as (Hi & Hb & _).
      split; assumption.
  - intros kwargs tf ect ts s t c Hc call. split; [|split].
    + intros last next Hlast Hle Hin Hnext.
      apply Qle_bool_iff in Hle, Hin.
      destruct (set_task_advance kwargs tf ect ts s t c last Hlast Hin Hc Hle)
        as (Hi & Hev & _).
      fold call in Hi, Hev.
      assert (Hon : StimulusClasses.on_baseline (fst call) = Some (next =? -1)).
      { unfold StimulusClasses.on_baseline. now rewrite Hev, Hi, Hnext. }
      split; [exact Hi|]. split; [exact Hon|].
      intros Hbefore. rewrite Hon, Hbefore. cbn. now rewrite negb_involutive.
    + intro Hlt.
      assert (Hnle : Qle_bool c t = false).
      { destruct (Qle_bool c t) eqn:E; [|reflexivity].
        apply Qle_bool_iff in E. exfalso. apply (Qlt_not_le _ _ Hlt E). }
      apply (set_task_early kwargs tf ect ts s t c Hc Hnle).
    + intros last Hlast Hlt.
      assert (Hnle : Qle_bool t last = false).
      { destruct (Qle_bool t last) eqn:E; [|reflexivity].
        apply Qle_bool_iff in E. exfalso. apply (Qlt_not_le _ _ Hlt E). }
      apply (set_task_late kwargs tf ect ts s t last Hlast Hnle).
Qed.

Lemma event_stepper_witness :
  match DriftingGrating.app_init Sample.gray_uint8 with
  | Py.Ok s =>
      let s' := fst (DriftingGrating.app_task 4 s) in
      DriftingGrating.event_change_num s'
      = DriftingGrating.event_change_num s + 1
      /\ DriftingGrating.baseline_stim s'
         = negb (DriftingGrating.baseline_stim s)
      /\ exists r, snd (DriftingGrating.app_task 4 s) = Py.Ok r
  | Py.Raise _ => False
  end
  /\ (let s := StimulusClasses.Main.exp_app in
      let call :=
        StimulusClasses.set_texture_task
          (Sample.constant_texture Sample.gray_uint8)
          StimulusClasses.Main.event_change_times
          StimulusClasses.Main.texture_size 2 s in
      StimulusClasses.current_event_num (fst call)
      = StimulusClasses.current_event_num s + 1
      /\ StimulusClasses.on_baseline (fst call) = Some (2 =? -1)
      /\ (StimulusClasses.on_baseline s = Some (negb (2 =? -1)) ->
          StimulusClasses.on_baseline (fst call)
          = option_map negb (StimulusClasses.on_baseline s))).
Proof.
  destruct event_stepper as [Happ Hexp]. split.
  - destruct (DriftingGrating.app_init Sample.gray_uint8) as [s|e] eqn:Hinit.
    + assert (Hreach : DriftingGrating.app_reachable Sample.gray_uint8 s)
        by (apply DriftingGrating.reach_init; exact Hinit).
      vm_compute in Hinit. injection Hinit as <-.
      apply (Happ Sample.gray_uint8 _ 4%Q 4%Q Hreach);
        [reflexivity|vm_compute; split; [discriminate|reflexivity]
        |discriminate].
    + vm_compute in Hinit. discriminate.
  - apply (Hexp _ (Sample.constant_texture Sample.gray_uint8)
             StimulusClasses.Main.event_change_times
             StimulusClasses.Main.texture_size StimulusClasses.Main.exp_app
             2%Q 2%Q eq_refl) with (last := 26%Q);
      try reflexivity; discriminate.
Defined.

(** The experiment of the main block of [stimulus_classes.py], run over
    frames at the change times and then at 27 s: at the last frame the
    index is 8, which is in range, and the change time at index 8 (26 s)
    has passed, yet the index stays 8 and the task returns [task.done]. *)
Lemma event_stepper_counterexample :
  Sample.exp_app_frames Sample.gray_uint8
    [2; 6; 10; 14; 16; 18; 21; 24; 27]%Q
  = [(2%Q, 1, Py.Ok (true, true)); (6%Q, 2, Py.Ok (true, true));
     (10%Q, 3, Py.Ok (true, true)); (14%Q, 4, Py.Ok (true, true));
     (16%Q, 5, Py.Ok (true, true)); (18%Q, 6, Py.Ok (true, true));
     (21%Q, 7, Py.Ok (true, true)); (24%Q, 8, Py.Ok (true, true));
     (27%Q, 8, Py.Ok (false, false))]
  /\ (let s := Sample.exp_app_at 8 in
      let call :=
        StimulusClasses.set_texture_task
          (Sample.constant_texture Sample.gray_uint8)
          StimulusClasses.Main.event_change_times
          StimulusClasses.Main.texture_size 27 s in
      Py.getitem (StimulusClasses.self_event_change_times s)
        (StimulusClasses.current_event_num s) = Some 26%Q
      /\ (26 <= 27)%Q
      /\ 0 <= StimulusClasses.current_event_num s
           < Z.of_nat (List.length (StimulusClasses.self_event_change_times s))
      /\ call = (s, Py.Ok Panda.done)
      /\ StimulusClasses.current_event_num (fst call)
         <> StimulusClasses.current_event_num s + 1).
Proof.
  split; [vm_compute; reflexivity|].
  cbv zeta. repeat split; try discriminate.
Qed.

(** ** C2: the event-change index over a run *)

Section FrameFacts.
Import StimulusClasses.
Variable kwargs : Type.
Variable texture_function : kwargs -> Np.ndarray.
Variable event_change_times : list Q.
Variable texture_size : Z.

Local Abbreviation State := (FullFieldDriftExperiment kwargs).

Lemma frame_index_step (s : State) (t : Q) scheduled :
  index_step_ok State current_event_num self_event_change_times s t
    (fst (frame texture_function event_change_times texture_size t
                scheduled s)).
Proof.
  pose proof (move_task_index kwargs event_change_times s t) as Hmove.
  unfold frame. eff_unfold.
  assert (Hrefl : index_step_ok State current_event_num
                    self_event_change_times s t s)
    by (split; lia).
  assert (Hset : forall s1,
             current_event_num s1 = current_event_num s ->
             same_timeline s s1 ->
             index_step_ok State current_event_num self_event_change_times
               s t (fst (set_texture_task texture_function
                           event_change_times texture_size t s1))).
  { intros s1 Hi (Hev & Hect & _).
    destruct (set_task_index_step kwargs texture_function
                event_change_times texture_size s1 t) as [Hstep _].
    unfold index_step_ok in *. now rewrite Hi, Hect in Hstep. }
  assert (Hsame : same_timeline s s) by (repeat split).
  destruct scheduled as [[|] [|]]; cbn [fst snd].
  - destruct (move_texture_task event_change_times t s) as [s1 [r1|e1]];
      cbn [fst snd] in Hmove; destruct Hmove as [Hi Htl].
    + specialize (Hset s1 Hi Htl).
      destruct (set_texture_task _ _ _ t s1) as [s2 [r2|e2]]; exact Hset.
    + cbn. split; [lia|]. intros Hlt. lia.
  - destruct (move_texture_task event_change_times t s) as [s1 [r1|e1]];
      cbn [fst snd] in Hmove; destruct Hmove as [Hi Htl];
      cbn; split; try lia; intros Hlt; lia.
  - specialize (Hset s eq_refl Hsame).
    destruct (set_texture_task _ _ _ t s) as [s2 [r2|e2]]; exact Hset.
  - exact Hrefl.
Qed.

Lemma run_frames_index (times : list Q) :
  forall scheduled (s : State),
    index_trace_ok State _ current_event_num self_event_change_times s
      (run_frames texture_function event_change_times texture_size times
                  scheduled s).
Proof.
  induction times as [|t times IH]; intros scheduled s; [exact I|].
  pose proof (frame_index_step s t scheduled) as Hstep.
  cbn [run_frames].
  destruct (frame _ _ _ t scheduled s) as [s' [scheduled'|e]];
    cbn [fst] in Hstep; cbn [index_trace_ok].
  - split; [exact Hstep|apply IH].
  - split; [exact Hstep|exact I].
Qed.
End FrameFacts.

Lemma app_run_index (times : list Q) :
  forall s,
    index_trace_ok DriftingGrating.MyApp _ DriftingGrating.event_change_num
      (fun _ => DriftingGrating.event_change_times) s
      (DriftingGrating.app_run times s).
Proof.
  unfold DriftingGrating.app_run.
  induction times as [|t times IH]; intros s; [exact I|].
  pose proof (task_index_step DriftingGrating.bgcolor DriftingGrating.angles
                DriftingGrating.shift_velocities
                DriftingGrating.event_change_times s t) as Hstep.
  cbn [DriftingGrating.run_frames].
  destruct (DriftingGrating.moveTextureTask _ _ _ _ t s) as [s' [[|]|e]];
    cbn [fst] in Hstep; cbn [index_trace_ok]; split;
    try exact Hstep; try exact I; apply IH.
Qed.

(** C2: over any run of frames whose elapsed times do not decrease, the
    event-change index ([MyApp.event_change_num],
    [FullFieldDriftExperiment.current_event_num]) never decreases from
    one call to the next, and it is higher after a call only if the
    elapsed time of that call has reached the change time at the index
    before the call. *)
Theorem event_index_monotone :
  forall times : list Q,
    nondecreasing times ->
    (forall s,
        index_trace_ok DriftingGrating.MyApp _
          DriftingGrating.event_change_num
          (fun _ => DriftingGrating.event_change_times) s
          (DriftingGrating.app_run times s))
    /\ (forall kwargs (texture_function : kwargs -> Np.ndarray)
               event_change_times texture_size scheduled s,
           index_trace_ok (StimulusClasses.FullFieldDriftExperiment kwargs) _
             StimulusClasses.current_event_num
             StimulusClasses.self_event_change_times s
             (StimulusClasses.run_frames texture_function event_change_times
                texture_size times scheduled s)).
Proof.
  intros times _. split.
  - apply app_run_index.
  - intros. apply run_frames_index.
Qed.

Lemma event_index_monotone_witness :
  (forall s,
      index_trace_ok DriftingGrating.MyApp _
        DriftingGrating.event_change_num
        (fun _ => DriftingGrating.event_change_times) s
        (DriftingGrating.app_run [1; 4; 4; 9]%Q s))
  /\ index_trace_ok _ _ StimulusClasses.current_event_num
       StimulusClasses.self_event_change_times StimulusClasses.Main.exp_app
       (StimulusClasses.run_frames
          (Sample.constant_texture Sample.gray_uint8)
          StimulusClasses.Main.event_change_times
          StimulusClasses.Main.texture_size [1; 4; 4; 9]%Q (true, true)
          StimulusClasses.Main.exp_app).
Proof.
  assert (Htimes : nondecreasing [1; 4; 4; 9]%Q).
  { cbn. repeat split; discriminate. }
  destruct (event_index_monotone [1; 4; 4; 9]%Q Htimes) as [Happ Hexp].
  split; [exact Happ|apply Hexp].
Defined.

(** ** C5: the end of the run *)

Section ExperimentEnd.
Import StimulusClasses.
Variable kwargs : Type.
Variable event_change_times : list Q.

(** [move_texture_task] ends by the clock: while the elapsed time is at
    most the last change time it returns [task.cont] (unless a look-up
    on the way raises), after it the title is set and it returns
    [task.done]. *)
Lemma move_task_by_clock (s : FullFieldDriftExperiment kwargs) (t last : Q) :
  Py.getitem event_change_times (-1) = Some last ->
  (Qle_bool t last = true ->
   (exists e, snd (move_texture_task event_change_times t s) = Py.Raise e)
   \/ snd (move_texture_task event_change_times t s) = Py.Ok Panda.cont)
  /\ (Qle_bool t last = false ->
      snd (move_texture_task event_change_times t s) = Py.Ok Panda.done
      /\ window_title (fst (move_texture_task event_change_times t s))
         = "FFDE Done").
Proof.
  intros Hlast. unfold move_texture_task, current_stim_params,
    current_event_ind. eff_unfold. rewrite Hlast.
  destruct s as [ev ect ed n ne sp sts ws bg wt cd tx tsg out].
  split; intros ->; [|split; reflexivity].
  eff_cases'; eauto.
Qed.
End ExperimentEnd.

(** C5, at the input where the code departs from it: frames at the change
    times of [drifting_grating_experiment.py], the last one exactly at
    the last change time (31.5 s), and one more frame at 32 s.  The call
    at 31.5 s moves the index to 8 and returns [Task.cont]; the call at
    32 s, after the last change time, raises [IndexError] at
    [event_change_times[8]] instead of setting the title and returning
    [Task.done]. *)
Theorem done_sentinel_failing_run :
  Sample.app_frames [4; 8; 11; 15; 18; 24; 53 # 2; 63 # 2; 32]%Q
  = Py.Ok [(4%Q, 1, false, Py.Ok Panda.cont);
           (8%Q, 2, true, Py.Ok Panda.cont);
           (11%Q, 3, false, Py.Ok Panda.cont);
           (15%Q, 4, true, Py.Ok Panda.cont);
           (18%Q, 5, false, Py.Ok Panda.cont);
           (24%Q, 6, true, Py.Ok Panda.cont);
           ((53 # 2)%Q, 7, false, Py.Ok Panda.cont);
           ((63 # 2)%Q, 8, true, Py.Ok Panda.cont);
           (32%Q, 8, true, Py.Raise Py.IndexError)]
  /\ Py.getitem DriftingGrating.event_change_times (-1) = Some (63 # 2)%Q
  /\ ~ (32 <= 63 # 2)%Q.
Proof.
  split; [vm_compute; reflexivity|]. split; [reflexivity|].
  intro H. vm_compute in H. apply H. reflexivity.
Qed.

(* ================================================================== *)
(** * Further properties *)

(** ** The derived event structure *)









Lemma interleave_nth {A} (ys : list A) :
  forall (xs : list A) (k : nat),
    List.length xs = S (List.length ys) ->
    (k <= List.length ys ->
     nth_error (Py.flatten_not_none (Py.zip_longest xs ys)) (2 * k)
     = nth_error xs k)%nat
    /\ (k < List.length ys ->
        nth_error (Py.flatten_not_none (Py.zip_longest xs ys)) (2 * k + 1)
        = nth_error ys k)%nat.
Proof.
  induction ys as [|y ys IH]; intros xs k Hlen.
  - destruct xs as [|x [|x' xs]]; try discriminate Hlen.
    split; intro Hk; cbn in Hk; [|lia].
    assert (k = 0)%nat by lia. subst k. reflexivity.
  - destruct xs as [|x xs]; [discriminate Hlen|].
    change (Py.flatten_not_none (Py.zip_longest (x :: xs) (y :: ys)))
      with (x :: y :: Py.flatten_not_none (Py.zip_longest xs ys)).
    destruct k as [|k].
    + split; intros _; reflexivity.
    + assert (Hlen' : List.length xs = S (List.length ys))
        by (cbn in Hlen; lia).
      destruct (IH xs k Hlen') as [Heven Hodd].
      replace (2 * S k)%nat with (S (S (2 * k))) by lia.
      replace (S (S (2 * k)) + 1)%nat with (S (S (2 * k + 1))) by lia.
      cbn [nth_error List.length]. split; intro Hk.
      * apply Heven. lia.
      * apply Hodd. lia.
Qed.

(** X2: With [n] stimulus durations and [n+1] inter-stimulus times, the
    event durations alternate: entry [2k] is the [k]-th inter-stimulus
    time and entry [2k+1] the [k]-th stimulus duration. *)
Theorem event_durations_interleaved :
  forall (inter_stimulus_times stim_durations : list Q) (n k : nat),
    List.length stim_durations = n ->
    List.length inter_stimulus_times = S n ->
    ((k <= n)%nat ->
     nth_error (DriftingGrating.derive_event_durations inter_stimulus_times
                                                       stim_durations)
               (2 * k)
     = nth_error inter_stimulus_times k)
    /\ ((k < n)%nat ->
        nth_error (DriftingGrating.derive_event_durations
                     inter_stimulus_times stim_durations) (2 * k + 1)
        = nth_error stim_durations k).
Proof.
  intros inter stim n k Hs Hi. subst n.
  apply (interleave_nth stim inter k Hi).
Qed.

Lemma event_durations_interleaved_witness :
  nth_error (DriftingGrating.derive_event_durations
               DriftingGrating.inter_stimulus_times
               DriftingGrating.stim_durations) (2 * 3)
  = nth_error DriftingGrating.inter_stimulus_times 3
  /\ nth_error (DriftingGrating.derive_event_durations
                  DriftingGrating.inter_stimulus_times
                  DriftingGrating.stim_durations) (2 * 3 + 1)
     = nth_error DriftingGrating.stim_durations 3.
Proof.
  destruct (event_durations_interleaved DriftingGrating.inter_stimulus_times
              DriftingGrating.stim_durations 4 3 eq_refl eq_refl)
    as [Heven Hodd].
  split; [apply Heven|apply Hodd]; lia.
Defined.

(** X3: The event list of the main block, built from [n+1] baselines ([-1])
    and [n] stimulus values none of which is [-1]: an event is the
    baseline exactly at the even positions, so baseline and stimulus
    alternate along the timeline, starting and ending on baseline. *)
Theorem all_events_alternate :
  forall (stimulus_values : list Z) (i : nat) (e : Z),
    Forall (fun v => v <> -1) stimulus_values ->
    nth_error
      (Py.flatten_not_none
         (Py.zip_longest (repeat (-1) (S (List.length stimulus_values)))
                         stimulus_values)) i = Some e ->
    (e = -1 <-> Nat.even i = true).
Proof.
  intros vals i e Hvals Hnth.
  set (n := List.length vals) in *.
  assert (Hlen : List.length (repeat (-1) (S n)) = S (List.length vals))
    by (rewrite repeat_length; reflexivity).
  assert (Hi : (i < 2 * n + 1)%nat).
  { assert (Hl : (i < List.length
              (Py.flatten_not_none
                 (Py.zip_longest (repeat (-1)%Z (S n)) vals)))%nat)
      by (apply nth_error_Some; congruence).
    rewrite interleave_length, repeat_length in Hl. fold n in Hl. lia. }
  destruct (Nat.even i) eqn:Hev.
  - apply Nat.even_spec in Hev. destruct Hev as [k ->].
    destruct (interleave_nth vals (repeat (-1) (S n)) k Hlen) as [Heven _].
    rewrite Heven in Hnth by (fold n; lia).
    apply nth_error_In, repeat_spec in Hnth. split; auto.
  - assert (Hodd : Nat.odd i = true)
      by (rewrite <- Nat.negb_even, Hev; reflexivity).
    apply Nat.odd_spec in Hodd. destruct Hodd as [k ->].
    destruct (interleave_nth vals (repeat (-1) (S n)) k Hlen) as [_ Hodd].
    rewrite Hodd in Hnth by (fold n; lia).
    apply nth_error_In in Hnth. rewrite Forall_forall in Hvals.
    specialize (Hvals e Hnth). split; [contradiction|discriminate].
Qed.

Lemma all_events_alternate_witness :
  (2 = -1 <-> Nat.even 1 = true) /\ (-1 = -1 <-> Nat.even 4 = true).
Proof.
  split.
  - apply (all_events_alternate StimulusClasses.Main.stimulus_values 1 2);
      [repeat constructor; discriminate|reflexivity].
  - apply (all_events_alternate StimulusClasses.Main.stimulus_values 4 (-1));
      [repeat constructor; discriminate|reflexivity].
Defined.

(** ** The drifting-grating application over a run *)

Section AppDisplay.
Import DriftingGrating.
Variables window_size texSize : Z.
Variable bgcolor : Panda.rgba.
Variable gratingTex : Np.ndarray.
Variables angles shift_velocities event_change_times : list Q.

Local Abbreviation task :=
  (moveTextureTask bgcolor angles shift_velocities event_change_times).

Lemma task_keeps_display (s s' : MyApp) (t : Q) (r : Panda.task_status) :
  task t s = (s', Py.Ok r) ->
  ((baseline_stim s = true ->
    Panda.card_texture (card1 s) = None
    /\ Panda.card_color (card1 s) = bgcolor)
   /\ (baseline_stim s = false ->
       Panda.card_texture (card1 s) = Some ("grating", gratingTexture s)
       /\ Panda.card_color (card1 s) = (1, 1, 1, 1)%Q)
   /\ Py.getitem angles (stim_num s) = Some (Panda.card_R (card1 s))) ->
  (baseline_stim s' = true ->
   Panda.card_texture (card1 s') = None
   /\ Panda.card_color (card1 s') = bgcolor)
  /\ (baseline_stim s' = false ->
      Panda.card_texture (card1 s') = Some ("grating", gratingTexture s')
      /\ Panda.card_color (card1 s') = (1, 1, 1, 1)%Q)
  /\ Py.getitem angles (stim_num s') = Some (Panda.card_R (card1 s')).
Proof.
  intros Hstep. revert Hstep. unfold moveTextureTask. eff_unfold.
  destruct s as [n k b ws wt gt cd out].
  eff_cases; intros Hstep; try discriminate Hstep;
    inversion Hstep; subst; clear Hstep; cbn in *;
    intros (Htrue & Hfalse & Hangle);
    repeat split; intros; try discriminate; try congruence;
    try (apply Htrue; congruence); try (apply Hfalse; congruence).
Qed.

(** X4: In every state of a run the card shows what the flag says: the
    background colour and no texture while [baseline_stim] is set, the
    grating on a white card while it is not; and the card is rotated by
    [angles[stim_num]] (with [stim_num = -1] before the first stimulus,
    which is the last entry of [angles]). *)
Theorem display_follows_state :
  forall s,
    reachable window_size texSize bgcolor gratingTex angles shift_velocities
              event_change_times s ->
    (baseline_stim s = true ->
     Panda.card_texture (card1 s) = None
     /\ Panda.card_color (card1 s) = bgcolor)
    /\ (baseline_stim s = false ->
        Panda.card_texture (card1 s) = Some ("grating", gratingTexture s)
        /\ Panda.card_color (card1 s) = (1, 1, 1, 1)%Q)
    /\ Py.getitem angles (stim_num s) = Some (Panda.card_R (card1 s)).
Proof.
  induction 1 as [s Hinit | s t s' Hreach IH Hstep].
  - unfold MyApp_init in Hinit.
    destruct (Py.getitem angles (-1)) as [a|] eqn:Ha; [|discriminate].
    injection Hinit as <-. cbn. repeat split; try discriminate. exact Ha.
  - exact (task_keeps_display s s' t Panda.cont Hstep IH).
Qed.

(** X5: After a call that returns, the texture offset is the elapsed time
    times the velocity of the stimulus on show; while the baseline is on
    show the call leaves the offset alone. *)
Theorem offset_follows_time :
  forall (s s' : MyApp) (t : Q) (r : Panda.task_status),
    task t s = (s', Py.Ok r) ->
    (baseline_stim s' = false ->
     exists v, Py.getitem shift_velocities (stim_num s') = Some v
               /\ Panda.card_tex_pos (card1 s') = (t * v)%Q)
    /\ (baseline_stim s' = true ->
        Panda.card_tex_pos (card1 s') = Panda.card_tex_pos (card1 s)).
Proof.
  intros s s' t r Hstep. revert Hstep.
  match goal with |- _ -> ?G => remember G as Concl eqn:HConcl end.
  unfold moveTextureTask. eff_unfold.
  destruct s as [n k b ws wt gt cd out].
  eff_cases; intros Hstep; try discriminate Hstep;
    inversion Hstep; subst; clear Hstep; cbn in *;
    split; intros; try discriminate; try reflexivity; eauto;
    destruct b; discriminate.
Qed.
End AppDisplay.

Lemma display_follows_state_witness :
  match DriftingGrating.app_init Sample.gray_uint8 with
  | Py.Ok s0 =>
      let s := fst (DriftingGrating.app_task 4 s0) in
      (DriftingGrating.baseline_stim s = true ->
       Panda.card_texture (DriftingGrating.card1 s) = None
       /\ Panda.card_color (DriftingGrating.card1 s) = DriftingGrating.bgcolor)
      /\ (DriftingGrating.baseline_stim s = false ->
          Panda.card_texture (DriftingGrating.card1 s)
          = Some ("grating", DriftingGrating.gratingTexture s)
          /\ Panda.card_color (DriftingGrating.card1 s) = (1, 1, 1, 1)%Q)
      /\ Py.getitem DriftingGrating.angles (DriftingGrating.stim_num s)
         = Some (Panda.card_R (DriftingGrating.card1 s))
  | Py.Raise _ => False
  end.
Proof.
  destruct (DriftingGrating.app_init Sample.gray_uint8) as [s0|e] eqn:Hinit.
  - assert (Hreach : DriftingGrating.app_reachable Sample.gray_uint8 s0)
      by (apply DriftingGrating.reach_init; exact Hinit).
    cbv zeta.
    remember (fst (DriftingGrating.app_task 4 s0)) as s1 eqn:Hs1.
    assert (Hcall : DriftingGrating.app_task 4 s0 = (s1, Py.Ok Panda.cont)).
    { rewrite Hs1. clear Hs1 Hreach.
      vm_compute in Hinit. injection Hinit as <-. vm_compute. reflexivity. }
    apply (display_follows_state DriftingGrating.window_size
             DriftingGrating.texSize DriftingGrating.bgcolor
             Sample.gray_uint8 DriftingGrating.angles
             DriftingGrating.shift_velocities
             DriftingGrating.event_change_times s1).
    exact (DriftingGrating.reach_frame _ _ _ _ _ _ _ s0 4%Q s1 Hreach Hcall).
  - vm_compute in Hinit. discriminate.
Defined.

Lemma offset_follows_time_witness :
  match DriftingGrating.app_init Sample.gray_uint8 with
  | Py.Ok s =>
      let s' := fst (DriftingGrating.app_task 5 s) in
      (DriftingGrating.baseline_stim s' = false ->
       exists v,
         Py.getitem DriftingGrating.shift_velocities
           (DriftingGrating.stim_num s') = Some v
         /\ Panda.card_tex_pos (DriftingGrating.card1 s') = (5 * v)%Q)
      /\ (DriftingGrating.baseline_stim s' = true ->
          Panda.card_tex_pos (DriftingGrating.card1 s')
          = Panda.card_tex_pos (DriftingGrating.card1 s))
  | Py.Raise _ => False
  end.
Proof.
  destruct (DriftingGrating.app_init Sample.gray_uint8) as [s|e] eqn:Hinit.
  - cbv zeta.
    remember (fst (DriftingGrating.app_task 5 s)) as s1 eqn:Hs1.
    assert (Hcall : DriftingGrating.app_task 5 s = (s1, Py.Ok Panda.cont)).
    { rewrite Hs1. clear Hs1.
      vm_compute in Hinit. injection Hinit as <-. vm_compute. reflexivity. }
    exact (offset_follows_time DriftingGrating.bgcolor DriftingGrating.angles
             DriftingGrating.shift_velocities
             DriftingGrating.event_change_times s s1 5%Q Panda.cont Hcall).
  - vm_compute in Hinit. discriminate.
Defined.

Lemma module_change_times_defined j :
  0 <= j < 8 ->
  exists c, Py.getitem DriftingGrating.event_change_times j = Some c.
Proof.
  intro Hj.
  assert (Hcases : j = 0 \/ j = 1 \/ j = 2 \/ j = 3 \/ j = 4 \/ j = 5
                   \/ j = 6 \/ j = 7) by lia.
  repeat (destruct Hcases as [-> | Hcases]); try rewrite Hcases;
    eexists; reflexivity.
Qed.

(** What a call does in a state of a run whose index is in range. *)
Lemma app_call_in_range gratingTex s t :
  DriftingGrating.app_reachable gratingTex s ->
  DriftingGrating.event_change_num s < 8 ->
  exists c r,
    Py.getitem DriftingGrating.event_change_times
      (DriftingGrating.event_change_num s) = Some c
    /\ snd (DriftingGrating.app_task t s) = Py.Ok r
    /\ DriftingGrating.event_change_num (fst (DriftingGrating.app_task t s))
       = (if Qle_bool c t then DriftingGrating.event_change_num s + 1
          else DriftingGrating.event_change_num s).
Proof.
  intros Hreach Hlt.
  destruct (app_reachable_inv gratingTex s Hreach) as (Hrange & Hinv).
  destruct (module_change_times_defined (DriftingGrating.event_change_num s))
    as [c Hc]; [lia|].
  assert (Hret : exists r, snd (DriftingGrating.app_task t s) = Py.Ok r).
  { apply (task_returns _ _ _ _ s t c (63 # 2)%Q Hc); [reflexivity| |].
    - intros Hbase.
      destruct Hinv as [[_ Hidx] | [Hfalse _]]; [|congruence].
      split; [apply module_angles_defined
             |apply module_velocities_defined]; lia.
    - intros Hbase.
      destruct Hinv as [[Htrue _] | [_ Hidx]]; [congruence|].
      apply module_velocities_defined; lia. }
  destruct Hret as [r Hr]. exists c, r. split; [exact Hc|].
  split; [exact Hr|].
  destruct (Qle_bool c t) eqn:Hle.
  - destruct (task_advance DriftingGrating.bgcolor DriftingGrating.angles
                DriftingGrating.shift_velocities
                DriftingGrating.event_change_times s t c Hc Hle)
      as (Hi & _); [exact Hlt| |exact Hi].
    intros Hbase. apply module_angles_defined.
    destruct Hinv as [[_ Hidx] | [Hfalse _]]; [lia|congruence].
  - destruct (task_no_change DriftingGrating.bgcolor DriftingGrating.angles
                DriftingGrating.shift_velocities
                DriftingGrating.event_change_times s t c Hc Hle)
      as (Hi & _). exact Hi.
Qed.

Lemma app_status_in_range :
  forall gratingTex s t,
    DriftingGrating.app_reachable gratingTex s ->
    DriftingGrating.event_change_num s < 8 ->
    ((t <= 63 # 2)%Q ->
     snd (DriftingGrating.app_task t s) = Py.Ok Panda.cont)
    /\ ((63 # 2 < t)%Q ->
        snd (DriftingGrating.app_task t s) = Py.Ok Panda.done
        /\ DriftingGrating.windowProps_title
             (fst (DriftingGrating.app_task t s)) = "Full field: done").
Proof.
  intros gratingTex s t Hreach Hlt.
  destruct (app_call_in_range gratingTex s t Hreach Hlt)
    as (c & r & Hc & Hr & _).
  destruct (task_status_by_clock DriftingGrating.bgcolor
              DriftingGrating.angles DriftingGrating.shift_velocities
              DriftingGrating.event_change_times s t c (63 # 2)%Q Hc eq_refl)
    as [Hcont Hdone].
  { unfold DriftingGrating.app_task in Hr. rewrite Hr. discriminate. }
  split.
  - intro Hle. apply Hcont. now apply Qle_bool_iff.
  - intro Hgt. apply Hdone.
    destruct (Qle_bool t (63 # 2)) eqn:E; [|reflexivity].
    apply Qle_bool_iff in E. exfalso. apply (Qlt_not_le _ _ Hgt E).
Qed.

(** X6: In a state of a run of [drifting_grating_experiment.py] whose
    event-change index is in range (below 8) the call returns, and what
    it returns is decided by the clock: [Task.cont] up to the last change
    time (31.5 s), and after it [Task.done] with the window title set to
    "Full field: done". *)
Theorem app_ends_by_clock :
  forall gratingTex s t,
    DriftingGrating.app_reachable gratingTex s ->
    DriftingGrating.event_change_num s < 8 ->
    ((t <= 63 # 2)%Q ->
     snd (DriftingGrating.app_task t s) = Py.Ok Panda.cont)
    /\ ((63 # 2 < t)%Q ->
        snd (DriftingGrating.app_task t s) = Py.Ok Panda.done
        /\ DriftingGrating.windowProps_title
             (fst (DriftingGrating.app_task t s)) = "Full field: done").
Proof.
  intros gratingTex s t Hreach Hlt.
  exact (app_status_in_range gratingTex s t Hreach Hlt).
Qed.

Lemma app_ends_by_clock_witness :
  match DriftingGrating.app_init Sample.gray_uint8 with
  | Py.Ok s =>
      snd (DriftingGrating.app_task 40 s) = Py.Ok Panda.done
      /\ DriftingGrating.windowProps_title
           (fst (DriftingGrating.app_task 40 s)) = "Full field: done"
  | Py.Raise _ => False
  end.
Proof.
  destruct (DriftingGrating.app_init Sample.gray_uint8) as [s|e] eqn:Hinit.
  - assert (Hreach : DriftingGrating.app_reachable Sample.gray_uint8 s)
      by (apply DriftingGrating.reach_init; exact Hinit).
    vm_compute in Hinit. injection Hinit as <-.
    apply (app_ends_by_clock Sample.gray_uint8 _ 40%Q Hreach);
      reflexivity.
  - vm_compute in Hinit. discriminate.
Defined.

Lemma app_run_returns gratingTex (times : list Q) :
  Forall (fun t => ~ (t == 63 # 2)%Q) times ->
  forall s,
    DriftingGrating.app_reachable gratingTex s ->
    DriftingGrating.event_change_num s < 8 ->
    Forall (fun f => (exists r, snd f = Py.Ok r)
                     /\ DriftingGrating.event_change_num (snd (fst f)) <= 8)
           (DriftingGrating.app_run times s).
Proof.
  unfold DriftingGrating.app_run.
  induction 1 as [|t times Ht Htimes IH]; intros s Hreach Hlt;
    [constructor|].
  destruct (app_call_in_range gratingTex s t Hreach Hlt)
    as (c & r & Hc & Hr & Hidx).
  pose proof (app_status_in_range gratingTex s t Hreach Hlt)
    as [Hcont Hdone].
  unfold DriftingGrating.app_task in Hr, Hidx, Hcont, Hdone.
  cbn [DriftingGrating.run_frames].
  destruct (DriftingGrating.moveTextureTask _ _ _ _ t s) as [s' r'] eqn:Hcall.
  cbn [fst snd] in Hr, Hidx, Hcont, Hdone. subst r'.
  assert (Hle8 : DriftingGrating.event_change_num s' <= 8)
    by (rewrite Hidx; destruct (Qle_bool c t); lia).
  constructor.
  - cbn [fst snd]. split; [eauto|exact Hle8].
  - destruct r; [|constructor].
    apply IH.
    + eapply DriftingGrating.reach_frame; [exact Hreach|exact Hcall].
    + (* the task goes on: the time is below the last change time *)
      assert (Hbelow : (t < 63 # 2)%Q).
      { destruct (Qlt_le_dec (63 # 2) t) as [Hgt | Hle].
        - destruct (Hdone Hgt) as [Hd _]. discriminate Hd.
        - apply Qle_lt_or_eq in Hle. destruct Hle as [Hl | He];
            [exact Hl|contradiction]. }
      rewrite Hidx. destruct (Qle_bool c t) eqn:Hct; [|exact Hlt].
      apply Qle_bool_iff in Hct.
      assert (Hc7 : DriftingGrating.event_change_num s <> 7).
      { intro H7. rewrite H7 in Hc. vm_compute in Hc. injection Hc as <-.
        apply (Qlt_not_le _ _ Hbelow Hct). }
      lia.
Qed.

(** X7: A run of [drifting_grating_experiment.py] in which no frame falls
    exactly on the last change time (31.5 s) never raises: every call
    returns [Task.cont] or [Task.done], and the event-change index stays
    within 0..8. *)
Theorem app_run_never_raises :
  forall gratingTex s0 (times : list Q),
    DriftingGrating.app_init gratingTex = Py.Ok s0 ->
    Forall (fun t => ~ (t == 63 # 2)%Q) times ->
    Forall (fun f => (exists r, snd f = Py.Ok r)
                     /\ DriftingGrating.event_change_num (snd (fst f)) <= 8)
           (DriftingGrating.app_run times s0).
Proof.
  intros gratingTex s0 times Hinit Htimes.
  assert (Hreach : DriftingGrating.app_reachable gratingTex s0)
    by (apply DriftingGrating.reach_init; exact Hinit).
  apply (app_run_returns gratingTex times Htimes s0 Hreach).
  vm_compute in Hinit. injection Hinit as <-. reflexivity.
Qed.

Lemma app_run_never_raises_witness :
  match DriftingGrating.app_init Sample.gray_uint8 with
  | Py.Ok s0 =>
      Forall (fun f => (exists r, snd f = Py.Ok r)
                       /\ DriftingGrating.event_change_num (snd (fst f)) <= 8)
             (DriftingGrating.app_run [1; 9; 31; 32; 40]%Q s0)
  | Py.Raise _ => False
  end.
Proof.
  destruct (DriftingGrating.app_init Sample.gray_uint8) as [s0|e] eqn:Hinit.
  - apply (app_run_never_raises Sample.gray_uint8 s0 _ Hinit).
    repeat constructor; discriminate.
  - vm_compute in Hinit. discriminate.
Defined.

(** X8: In every state of a run of [drifting_grating_experiment.py] the
    event-change index tells the rest of the timeline state: the index
    is within 0..8, [baseline_stim] is set exactly at the even indices,
    and [stim_num], within -1..3, is the number of the stimulus begun
    last: the index is [2 * (stim_num + 1)], less one while the stimulus
    is on show. *)
Theorem app_state_of_index :
  forall gratingTex s,
    DriftingGrating.app_reachable gratingTex s ->
    0 <= DriftingGrating.event_change_num s <= 8
    /\ DriftingGrating.baseline_stim s
       = Z.even (DriftingGrating.event_change_num s)
    /\ -1 <= DriftingGrating.stim_num s <= 3
    /\ DriftingGrating.event_change_num s
       = 2 * (DriftingGrating.stim_num s + 1)
         - (if DriftingGrating.baseline_stim s then 0 else 1).
Proof.
  intros gratingTex s Hreach.
  destruct (app_reachable_inv gratingTex s Hreach) as (Hrange & Hinv).
  split; [exact Hrange|].
  destruct Hinv as [[Hb Hidx] | [Hb Hidx]]; rewrite Hb, Hidx.
  - rewrite Z.even_mul. cbn [Z.even orb]. repeat split; lia.
  - rewrite Z.add_comm, Z.even_add_mul_2. cbn [Z.even].
    repeat split; lia.
Qed.

Lemma app_state_of_index_witness :
  match DriftingGrating.app_init Sample.gray_uint8 with
  | Py.Ok s =>
      0 <= DriftingGrating.event_change_num s <= 8
      /\ DriftingGrating.baseline_stim s
         = Z.even (DriftingGrating.event_change_num s)
      /\ -1 <= DriftingGrating.stim_num s <= 3
      /\ DriftingGrating.event_change_num s
         = 2 * (DriftingGrating.stim_num s + 1)
           - (if DriftingGrating.baseline_stim s then 0 else 1)
  | Py.Raise _ => False
  end.
Proof.
  destruct (DriftingGrating.app_init Sample.gray_uint8) as [s|e] eqn:Hinit.
  - apply (app_state_of_index Sample.gray_uint8 s).
    apply DriftingGrating.reach_init. exact Hinit.
  - vm_compute in Hinit. discriminate.
Defined.

(** ** The constructors of stimulus_classes.py *)



(** X10: [FullFieldStatic.__init__] against [FullFieldDrift.__init__] on the
    same array, angle and sizes, whatever velocity the latter is given:
    both raise the same exception, or both return, with the same texture
    on the same card; the static stimulus has velocity 0, no drift task
    and the title "FullFieldStatic". *)
Theorem FullFieldStatic_as_drift :
  forall texture_array angle velocity window_size texture_size,
    match StimulusClasses.FullFieldDrift_init texture_array angle velocity
            window_size texture_size,
          StimulusClassesRest.FullFieldStatic_init texture_array angle
            window_size texture_size with
    | Py.Ok drift, Py.Ok static =>
        StimulusClasses.ffd_texture static = StimulusClasses.ffd_texture drift
        /\ StimulusClasses.ffd_card1 static = StimulusClasses.ffd_card1 drift
        /\ StimulusClasses.ffd_velocity static = 0%Q
        /\ StimulusClasses.ffd_task_added static = false
        /\ StimulusClasses.ffd_window_title static = "FullFieldStatic"
    | Py.Raise e, Py.Raise e' => e = e'
    | _, _ => False
    end.
Proof.
  intros a angle velocity ws ts.
  unfold StimulusClassesRest.FullFieldStatic_init,
    StimulusClasses.FullFieldDrift_init.
  destruct (Np.flat0_type a) as [d|e]; cbn [rbind]; [|reflexivity].
  destruct (StimulusClasses.setup_texture a (Np.ndim a) _ ts) as [tex|e];
    cbn; [|reflexivity].
  repeat split.
Qed.

(** X11: [BinocularDrift.__init__] validates the texture as
    [FullFieldDrift.__init__] does: for a texture size that is not
    negative both raise the same exception or both return with the same
    texture.  With a negative texture size and an array that has an
    element, [BinocularDrift.__init__] raises the [ValueError] of
    [np.ones] before it looks at the texture. *)
Theorem BinocularDrift_validates_as_FullFieldDrift :
  forall texture_array angle velocity stim_angles mask_angle position
         velocities band_radius window_size texture_size,
    (0 <= texture_size ->
     match StimulusClasses.FullFieldDrift_init texture_array angle velocity
             window_size texture_size,
           StimulusClasses.BinocularDrift_init texture_array stim_angles
             mask_angle position velocities band_radius window_size
             texture_size with
     | Py.Ok full, Py.Ok bino =>
         StimulusClasses.bd_texture bino = StimulusClasses.ffd_texture full
     | Py.Raise e, Py.Raise e' => e = e'
     | _, _ => False
     end)
    /\ (texture_size < 0 ->
        Np.size_of (Np.shape texture_array) <> 0%nat ->
        StimulusClasses.BinocularDrift_init texture_array stim_angles
          mask_angle position velocities band_radius window_size texture_size
        = Py.Raise (Py.ValueError "negative dimensions are not allowed")).
Proof.
  intros a angle velocity sa ma pos vel br ws ts.
  unfold StimulusClasses.BinocularDrift_init,
    StimulusClasses.FullFieldDrift_init.
  split.
  - intros Hts.
    destruct (Np.flat0_type a) as [d|e]; cbn [rbind]; [|reflexivity].
    destruct (make_mask_cases ts br)
      as [(l & r & -> & -> & _) | (msg & _ & _ & Hneg)]; [|lia].
    cbn [rbind].
    destruct (StimulusClasses.setup_texture a (Np.ndim a) _ ts) as [tex|e];
      cbn; reflexivity.
  - intros Hts Hnz.
    destruct (flat0_type_cases a) as [[Hz _] | [_ ->]]; [contradiction|].
    cbn [rbind].
    unfold StimulusClasses.make_left_mask, Np.ones. cbn [forallb].
    apply Z.leb_gt in Hts. rewrite Hts. reflexivity.
Qed.

Lemma BinocularDrift_validates_as_FullFieldDrift_witness :
  match StimulusClasses.FullFieldDrift_init Sample.gray_float64 0 (1 # 10)
          512 512,
        StimulusClasses.BinocularDrift_init Sample.gray_float64 (0, 0)%Q 0
          (0, 0)%Q (0, 0)%Q 2 512 512 with
  | Py.Ok full, Py.Ok bino =>
      StimulusClasses.bd_texture bino = StimulusClasses.ffd_texture full
  | Py.Raise e, Py.Raise e' => e = e'
  | _, _ => False
  end
  /\ StimulusClasses.BinocularDrift_init Sample.gray_uint8 (0, 0)%Q 0
       (0, 0)%Q (0, 0)%Q 2 512 (-4)
     = Py.Raise (Py.ValueError "negative dimensions are not allowed").
Proof.
  split.
  - apply (BinocularDrift_validates_as_FullFieldDrift Sample.gray_float64
             0 (1 # 10) (0, 0)%Q 0 (0, 0)%Q (0, 0)%Q 2 512 512).
    discriminate.
  - apply (BinocularDrift_validates_as_FullFieldDrift Sample.gray_uint8
             0 (1 # 10) (0, 0)%Q 0 (0, 0)%Q (0, 0)%Q 2 512 (-4));
      [reflexivity|discriminate].
Defined.

(** ** The binocular masks outside the usual band radii *)

Lemma masked_pixel ts start stop all_ones r c :
  Np.ones [ts; ts] Np.uint8 = Py.Ok all_ones ->
  Z.of_nat r < ts -> Z.of_nat c < ts ->
  Np.getitem2
    (Np.setitem_cols (Np.scalar_mul_uint8 255 all_ones) start stop 0%Q) r c
  = Some (if Py.in_slice start stop ts (Z.of_nat c) then 0%Q else 255%Q).
Proof.
  intros Hones Hr Hc.
  destruct (getitem2_255_ones ts all_ones r c Hones Hr Hc) as [Hsh Hget].
  rewrite (getitem2_setitem_cols _ _ _ _ (Z.to_nat ts) (Z.to_nat ts) r c 255%Q);
    [|exact Hsh|exact Hget].
  rewrite Z2Nat.id by lia. reflexivity.
Qed.

Lemma masks_by_slices ts br l rt r c :
  StimulusClasses.make_left_mask ts br = Py.Ok l ->
  StimulusClasses.make_right_mask ts br = Py.Ok rt ->
  Z.of_nat r < ts -> Z.of_nat c < ts ->
  Np.getitem2 l r c
  = Some (if Py.in_slice (Some (ts / 2 - br)) None ts (Z.of_nat c)
          then 0%Q else 255%Q)
  /\ Np.getitem2 rt r c
     = Some (if Py.in_slice None (Some (ts / 2 + br)) ts (Z.of_nat c)
             then 0%Q else 255%Q).
Proof.
  intros Hl Hrt Hr Hc.
  unfold StimulusClasses.make_left_mask, StimulusClasses.make_right_mask,
    rbind in Hl, Hrt.
  destruct (Np.ones [ts; ts] Np.uint8) as [all_ones|e] eqn:Hones;
    [|discriminate].
  injection Hl as <-. injection Hrt as <-.
  split; apply masked_pixel; assumption.
Qed.

Lemma half_bounds ts : 0 < ts -> 0 <= ts / 2 /\ ts / 2 + ts / 2 <= ts
                                 /\ ts <= ts / 2 + ts / 2 + 1.
Proof.
  intro Hts. pose proof (Z.div_mod ts 2 ltac:(lia)) as Hdm.
  pose proof (Z.mod_pos_bound ts 2 ltac:(lia)) as Hmod.
  assert (0 <= ts / 2) by (apply Z.div_pos; lia). lia.
Qed.

(** X12: A band radius beyond half the texture does not blank both masks.
    For [texture_size//2 < band_radius <= texture_size//2 + texture_size]
    the start of the left slice is negative and counts from the right
    edge: the left mask is 255 left of column
    [texture_size + texture_size//2 - band_radius], while the right mask
    is 0 everywhere. *)
Theorem masks_band_radius_too_large :
  forall texture_array stim_angles mask_angle position velocities
         band_radius window_size texture_size obj,
    0 < texture_size ->
    texture_size / 2 < band_radius <= texture_size / 2 + texture_size ->
    StimulusClasses.BinocularDrift_init texture_array stim_angles mask_angle
      position velocities band_radius window_size texture_size = Py.Ok obj ->
    forall r c : nat,
      Z.of_nat r < texture_size -> Z.of_nat c < texture_size ->
      Np.getitem2 (StimulusClasses.left_mask_array obj) r c
      = Some (if Z.of_nat c <? texture_size + texture_size / 2 - band_radius
              then 255%Q else 0%Q)
      /\ Np.getitem2 (StimulusClasses.right_mask_array obj) r c = Some 0%Q.
Proof.
  intros ta sa ma pos vel br ws ts obj Hts Hbr Hinit r c Hr Hc.
  destruct (BinocularDrift_init_masks _ _ _ _ _ _ _ _ _ Hinit) as [Hl Hrt].
  destruct (masks_by_slices ts br _ _ r c Hl Hrt Hr Hc) as [-> ->].
  destruct (half_bounds ts Hts) as (H0 & Hlo & Hhi).
  unfold Py.in_slice, Py.slice_indices, Py.clamp_index.
  destruct (ts / 2 - br <? 0) eqn:Hneg; [|apply Z.ltb_ge in Hneg; lia].
  destruct (ts / 2 + br <? 0) eqn:Hneg'; [apply Z.ltb_lt in Hneg'; lia|].
  split; f_equal.
  - destruct (Z.of_nat c <? ts + ts / 2 - br) eqn:Hlt.
    + apply Z.ltb_lt in Hlt.
      replace (Z.max (ts / 2 - br + ts) 0 <=? Z.of_nat c) with false;
        [reflexivity|]. symmetry. apply Z.leb_gt. lia.
    + apply Z.ltb_ge in Hlt.
      replace (Z.max (ts / 2 - br + ts) 0 <=? Z.of_nat c) with true
        by (symmetry; apply Z.leb_le; lia).
      replace (Z.of_nat c <? ts) with true
        by (symmetry; apply Z.ltb_lt; lia).
      reflexivity.
  - replace (0 <=? Z.of_nat c) with true by (symmetry; apply Z.leb_le; lia).
    replace (Z.of_nat c <? Z.min (ts / 2 + br) ts) with true;
      [reflexivity|]. symmetry. apply Z.ltb_lt. lia.
Qed.

Lemma masks_band_radius_too_large_witness :
  match StimulusClasses.BinocularDrift_init
          (Np.mk_ndarray Np.uint8 [8; 8]%nat (repeat 0%Q 64))
          (0, 0)%Q 0 (0, 0)%Q (0, 0)%Q 5 8 8 with
  | Py.Ok obj =>
      Np.getitem2 (StimulusClasses.left_mask_array obj) 0 6
      = Some (if Z.of_nat 6 <? 8 + 8 / 2 - 5 then 255%Q else 0%Q)
      /\ Np.getitem2 (StimulusClasses.right_mask_array obj) 0 6 = Some 0%Q
  | Py.Raise _ => False
  end.
Proof.
  destruct (StimulusClasses.BinocularDrift_init _ _ _ _ _ 5 8 8)
    as [obj|e] eqn:H.
  - apply (masks_band_radius_too_large _ _ _ _ _ 5 8 8 obj ltac:(lia)
             ltac:(vm_compute; split; [reflexivity|discriminate]) H
             0%nat 6%nat); lia.
  - vm_compute in H. discriminate.
Defined.

(** X13: With a negative band radius (down to [-(texture_size//2)]) the two
    masks overlap: the left mask is 255 left of column
    [texture_size//2 - band_radius], the right mask from column
    [texture_size//2 + band_radius] on, so every pixel of the band
    between these columns is 255 in both. *)
Theorem masks_band_radius_negative :
  forall texture_array stim_angles mask_angle position velocities
         band_radius window_size texture_size obj,
    0 < texture_size ->
    - (texture_size / 2) <= band_radius < 0 ->
    StimulusClasses.BinocularDrift_init texture_array stim_angles mask_angle
      position velocities band_radius window_size texture_size = Py.Ok obj ->
    forall r c : nat,
      Z.of_nat r < texture_size -> Z.of_nat c < texture_size ->
      Np.getitem2 (StimulusClasses.left_mask_array obj) r c
      = Some (if Z.of_nat c <? texture_size / 2 - band_radius
              then 255%Q else 0%Q)
      /\ Np.getitem2 (StimulusClasses.right_mask_array obj) r c
         = Some (if texture_size / 2 + band_radius <=? Z.of_nat c
                 then 255%Q else 0%Q)
      /\ (texture_size / 2 + band_radius <= Z.of_nat c
            < texture_size / 2 - band_radius ->
          Np.getitem2 (StimulusClasses.left_mask_array obj) r c = Some 255%Q
          /\ Np.getitem2 (StimulusClasses.right_mask_array obj) r c
             = Some 255%Q).
Proof.
  intros ta sa ma pos vel br ws ts obj Hts Hbr Hinit r c Hr Hc.
  destruct (BinocularDrift_init_masks _ _ _ _ _ _ _ _ _ Hinit) as [Hl Hrt].
  destruct (masks_by_slices ts br _ _ r c Hl Hrt Hr Hc) as [Hlp Hrp].
  destruct (half_bounds ts Hts) as (H0 & Hlo & Hhi).
  assert (Hleft : Py.in_slice (Some (ts / 2 - br)) None ts (Z.of_nat c)
                  = negb (Z.of_nat c <? ts / 2 - br)).
  { unfold Py.in_slice, Py.slice_indices, Py.clamp_index.
    destruct (ts / 2 - br <? 0) eqn:Hneg; [apply Z.ltb_lt in Hneg; lia|].
    replace (Z.of_nat c <? ts) with true by (symmetry; apply Z.ltb_lt; lia).
    rewrite andb_true_r, Z.min_l by lia. apply Z.leb_antisym. }
  assert (Hright : Py.in_slice None (Some (ts / 2 + br)) ts (Z.of_nat c)
                   = negb (ts / 2 + br <=? Z.of_nat c)).
  { unfold Py.in_slice, Py.slice_indices, Py.clamp_index.
    destruct (ts / 2 + br <? 0) eqn:Hneg; [apply Z.ltb_lt in Hneg; lia|].
    replace (0 <=? Z.of_nat c) with true by (symmetry; apply Z.leb_le; lia).
    rewrite Z.min_l by lia. cbn [andb]. apply Z.ltb_antisym. }
  rewrite Hleft in Hlp. rewrite Hright in Hrp.
  assert (Hl' : Np.getitem2 (StimulusClasses.left_mask_array obj) r c
                = Some (if Z.of_nat c <? ts / 2 - br then 255%Q else 0%Q))
    by (rewrite Hlp; destruct (Z.of_nat c <? ts / 2 - br); reflexivity).
  assert (Hr' : Np.getitem2 (StimulusClasses.right_mask_array obj) r c
                = Some (if ts / 2 + br <=? Z.of_nat c then 255%Q else 0%Q))
    by (rewrite Hrp; destruct (ts / 2 + br <=? Z.of_nat c); reflexivity).
  split; [exact Hl'|]. split; [exact Hr'|].
  intros [Hge Hlt]. rewrite Hl', Hr'.
  apply Z.ltb_lt in Hlt. apply Z.leb_le in Hge. rewrite Hlt, Hge. auto.
Qed.

Lemma masks_band_radius_negative_witness :
  match StimulusClasses.BinocularDrift_init
          (Np.mk_ndarray Np.uint8 [8; 8]%nat (repeat 0%Q 64))
          (0, 0)%Q 0 (0, 0)%Q (0, 0)%Q (-2) 8 8 with
  | Py.Ok obj =>
      Np.getitem2 (StimulusClasses.left_mask_array obj) 0 3 = Some 255%Q
      /\ Np.getitem2 (StimulusClasses.right_mask_array obj) 0 3 = Some 255%Q
  | Py.Raise _ => False
  end.
Proof.
  destruct (StimulusClasses.BinocularDrift_init _ _ _ _ _ (-2) 8 8)
    as [obj|e] eqn:H.
  - apply (masks_band_radius_negative _ _ _ _ _ (-2) 8 8 obj ltac:(lia)
             ltac:(vm_compute; split; [discriminate|reflexivity]) H
             0%nat 3%nat ltac:(lia) ltac:(lia)).
    vm_compute. split; [discriminate|reflexivity].
  - vm_compute in H. discriminate.
Defined.

(** ** The per-frame updates of the binocular stimulus *)

Lemma BinocularDrift_init_fields ta sa ma pos vel br ws ts obj :
  StimulusClasses.BinocularDrift_init ta sa ma pos vel br ws ts = Py.Ok obj ->
  StimulusClasses.left_velocity obj = fst vel
  /\ StimulusClasses.right_velocity obj = snd vel
  /\ StimulusClasses.bd_update obj
     = (if negb (Qeq_bool (fst vel) 0) && negb (Qeq_bool (snd vel) 0)
        then StimulusClasses.move_both
        else if negb (Qeq_bool (fst vel) 0) && Qeq_bool (snd vel) 0
        then StimulusClasses.move_left
        else if Qeq_bool (fst vel) 0 && negb (Qeq_bool (snd vel) 0)
        then StimulusClasses.move_right
        else StimulusClasses.move_none)
  /\ StimulusClasses.bd_window_title obj = "BinocularDrift"
  /\ StimulusClasses.left_texture_angle obj = fst sa
  /\ StimulusClasses.right_texture_angle obj = snd sa.
Proof.
  unfold StimulusClasses.BinocularDrift_init, rbind. intro H.
  destruct (Np.flat0_type ta); [|discriminate].
  destruct (StimulusClasses.make_left_mask ts br); [|discriminate].
  destruct (StimulusClasses.make_right_mask ts br); [|discriminate].
  destruct (StimulusClasses.setup_texture _ _ _ _); [|discriminate].
  injection H as <-. repeat split.
Qed.

Lemma update_frame_offsets obj (t : Q) st :
  fst st = obj ->
  (Qeq_bool (StimulusClasses.left_velocity obj) 0 = true ->
   (StimulusClassesRest.left_tex_pos (snd st) == 0)%Q) ->
  (Qeq_bool (StimulusClasses.right_velocity obj) 0 = true ->
   (StimulusClassesRest.right_tex_pos (snd st) == 0)%Q) ->
  StimulusClasses.bd_update obj
  = (if negb (Qeq_bool (StimulusClasses.left_velocity obj) 0)
        && negb (Qeq_bool (StimulusClasses.right_velocity obj) 0)
     then StimulusClasses.move_both
     else if negb (Qeq_bool (StimulusClasses.left_velocity obj) 0)
             && Qeq_bool (StimulusClasses.right_velocity obj) 0
     then StimulusClasses.move_left
     else if Qeq_bool (StimulusClasses.left_velocity obj) 0
             && negb (Qeq_bool (StimulusClasses.right_velocity obj) 0)
     then StimulusClasses.move_right
     else StimulusClasses.move_none) ->
  let st' := StimulusClassesRest.update_frame t st in
  fst st' = obj
  /\ (StimulusClassesRest.left_tex_pos (snd st')
      == - t * StimulusClasses.left_velocity obj)%Q
  /\ (StimulusClassesRest.right_tex_pos (snd st')
      == - t * StimulusClasses.right_velocity obj)%Q
  /\ (Qeq_bool (StimulusClasses.left_velocity obj) 0 = true ->
      (StimulusClassesRest.left_tex_pos (snd st') == 0)%Q)
  /\ (Qeq_bool (StimulusClasses.right_velocity obj) 0 = true ->
      (StimulusClassesRest.right_tex_pos (snd st') == 0)%Q).
Proof.
  intros Hobj Hl Hr Hupd st'. subst st'.
  unfold StimulusClassesRest.update_frame. rewrite Hobj, Hupd.
  destruct st as [self [lp rp]]. cbn [fst snd] in *. subst self.
  destruct (Qeq_bool (StimulusClasses.left_velocity obj) 0) eqn:El;
    destruct (Qeq_bool (StimulusClasses.right_velocity obj) 0) eqn:Er;
    cbn; cbn in Hl, Hr;
    try (pose proof (Hl eq_refl) as Hl0);
    try (pose proof (Hr eq_refl) as Hr0);
    try (apply Qeq_bool_iff in El); try (apply Qeq_bool_iff in Er);
    repeat split; intros; try discriminate;
    try assumption; try reflexivity;
    try (rewrite Hl0, El; ring); try (rewrite Hr0, Er; ring);
    try (rewrite El; ring); try (rewrite Er; ring).
Qed.

(** X14: Whatever the two velocities, after any frames of the task manager
    the texture offset of each card is minus the time of the last frame
    times that card's velocity: the update that [__init__] picked moves
    exactly the textures with a velocity other than 0, and the others
    stay at offset 0. *)
Theorem update_moves_by_velocity :
  forall texture_array stim_angles mask_angle position velocities
         band_radius window_size texture_size obj (times : list Q) (t : Q),
    StimulusClasses.BinocularDrift_init texture_array stim_angles mask_angle
      position velocities band_radius window_size texture_size = Py.Ok obj ->
    let st :=
      fold_left (fun st time => StimulusClassesRest.update_frame time st)
                (times ++ [t])
                (obj, StimulusClassesRest.initial_positions) in
    fst st = obj
    /\ (StimulusClassesRest.left_tex_pos (snd st) == - t * fst velocities)%Q
    /\ (StimulusClassesRest.right_tex_pos (snd st) == - t * snd velocities)%Q.
Proof.
  intros ta sa ma pos vel br ws ts obj times t Hinit st.
  destruct (BinocularDrift_init_fields _ _ _ _ _ _ _ _ _ Hinit)
    as (Hlv & Hrv & Hupd & _).
  rewrite <- Hlv, <- Hrv in Hupd |- *.
  assert (Hinv : forall times st0,
             fst st0 = obj ->
             (Qeq_bool (StimulusClasses.left_velocity obj) 0 = true ->
              (StimulusClassesRest.left_tex_pos (snd st0) == 0)%Q) ->
             (Qeq_bool (StimulusClasses.right_velocity obj) 0 = true ->
              (StimulusClassesRest.right_tex_pos (snd st0) == 0)%Q) ->
             let st1 :=
               fold_left
                 (fun st time => StimulusClassesRest.update_frame time st)
                 times st0 in
             fst st1 = obj
             /\ (Qeq_bool (StimulusClasses.left_velocity obj) 0 = true ->
                 (StimulusClassesRest.left_tex_pos (snd st1) == 0)%Q)
             /\ (Qeq_bool (StimulusClasses.right_velocity obj) 0 = true ->
                 (StimulusClassesRest.right_tex_pos (snd st1) == 0)%Q)).
  { induction times0 as [|t0 times0 IH]; intros st0 H0 Hl Hr; cbn.
    - auto.
    - destruct (update_frame_offsets obj t0 st0 H0 Hl Hr Hupd)
        as (H0' & _ & _ & Hl' & Hr').
      apply IH; assumption. }
  subst st. rewrite fold_left_app. cbn [fold_left].
  destruct (Hinv times (obj, StimulusClassesRest.initial_positions))
    as (H0 & Hl & Hr); try reflexivity.
  destruct (update_frame_offsets obj t _ H0 Hl Hr Hupd)
    as (H0' & Hleft & Hright & _).
  auto.
Qed.

Lemma update_moves_by_velocity_witness :
  match StimulusClasses.BinocularDrift_init Sample.gray_uint8 (-45, 90)%Q 25
          (1 # 10, - (4 # 10))%Q (3 # 100, 0)%Q 2 512 4 with
  | Py.Ok obj =>
      let st :=
        fold_left (fun st time => StimulusClassesRest.update_frame time st)
                  ([1; 2]%Q ++ [3%Q])
                  (obj, StimulusClassesRest.initial_positions) in
      fst st = obj
      /\ (StimulusClassesRest.left_tex_pos (snd st)
          == - (3) * fst (3 # 100, 0)%Q)%Q
      /\ (StimulusClassesRest.right_tex_pos (snd st)
          == - (3) * snd (3 # 100, 0)%Q)%Q
  | Py.Raise _ => False
  end.
Proof.
  destruct (StimulusClasses.BinocularDrift_init _ _ _ _ _ 2 512 4)
    as [obj|e] eqn:H.
  - exact (update_moves_by_velocity _ _ _ _ _ _ _ _ obj [1; 2]%Q 3%Q H).
  - vm_compute in H. discriminate.
Defined.

(** X15: [BinocularStatic.__init__] against [BinocularDrift.__init__] on the
    same arguments, whatever velocities the latter is given: both raise
    the same exception, or both return with the same masks, texture and
    mask transform; the static stimulus has both velocities 0, no update
    task and the title "BinocularStatic". *)
Theorem BinocularStatic_as_drift :
  forall texture_array stim_angles mask_angle position velocities
         band_radius window_size texture_size,
    match StimulusClasses.BinocularDrift_init texture_array stim_angles
            mask_angle position velocities band_radius window_size
            texture_size,
          StimulusClassesRest.BinocularStatic_init texture_array stim_angles
            mask_angle position band_radius window_size texture_size with
    | Py.Ok drift, Py.Ok static =>
        StimulusClasses.left_mask_array static
        = StimulusClasses.left_mask_array drift
        /\ StimulusClasses.right_mask_array static
           = StimulusClasses.right_mask_array drift
        /\ StimulusClasses.bd_texture static = StimulusClasses.bd_texture drift
        /\ StimulusClasses.bd_mask_transform static
           = StimulusClasses.bd_mask_transform drift
        /\ StimulusClasses.left_velocity static = 0%Q
        /\ StimulusClasses.right_velocity static = 0%Q
        /\ StimulusClasses.bd_update static = StimulusClasses.move_none
        /\ StimulusClasses.bd_window_title static = "BinocularStatic"
    | Py.Raise e, Py.Raise e' => e = e'
    | _, _ => False
    end.
Proof.
  intros a sa ma pos vel br ws ts.
  unfold StimulusClassesRest.BinocularStatic_init,
    StimulusClasses.BinocularDrift_init.
  destruct (Np.flat0_type a) as [d|e]; cbn [rbind]; [|reflexivity].
  destruct (StimulusClasses.make_left_mask ts br) as [l|e]; cbn [rbind];
    [|reflexivity].
  destruct (StimulusClasses.make_right_mask ts br) as [r|e]; cbn [rbind];
    [|reflexivity].
  destruct (StimulusClasses.setup_texture a (Np.ndim a) _ ts) as [tex|e];
    cbn; [|reflexivity].
  repeat split.
Qed.

(** ** binocular_omr_grating.py *)

Lemma getitem_nat {A} (xs : list A) (k : nat) :
  Py.getitem xs (Z.of_nat k) = nth_error xs k.
Proof.
  unfold Py.getitem.
  replace (0 <=? Z.of_nat k) with true by (symmetry; apply Z.leb_le; lia).
  cbn [andb].
  destruct (Z.of_nat k <? Z.of_nat (List.length xs)) eqn:Hlt.
  - now rewrite Nat2Z.id.
  - apply Z.ltb_ge in Hlt.
    replace (Z.of_nat k <? 0) with false by (symmetry; apply Z.ltb_ge; lia).
    rewrite andb_false_r. symmetry. apply nth_error_None. lia.
Qed.


(** X17: The masks of the main block of [binocular_omr_grating.py], for
    [0 <= band_radius <= texture_size//2]: [leftMask] is 255 exactly from
    column [texture_size//2 + band_radius] on and [rightMask] exactly
    left of column [texture_size//2 - band_radius].  They are the masks
    of [BinocularDrift] in [stimulus_classes.py] with the names
    exchanged. *)
Theorem omr_masks :
  forall texture_size band_radius leftMask rightMask (r c : nat),
    0 <= band_radius <= texture_size / 2 ->
    BinocularOmr.make_leftMask texture_size band_radius = Py.Ok leftMask ->
    BinocularOmr.make_rightMask texture_size band_radius = Py.Ok rightMask ->
    Z.of_nat r < texture_size -> Z.of_nat c < texture_size ->
    Np.getitem2 leftMask r c
    = Some (if texture_size / 2 + band_radius <=? Z.of_nat c
            then 255%Q else 0%Q)
    /\ Np.getitem2 rightMask r c
       = Some (if Z.of_nat c <? texture_size / 2 - band_radius
               then 255%Q else 0%Q)
    /\ StimulusClasses.make_right_mask texture_size band_radius
       = Py.Ok leftMask
    /\ StimulusClasses.make_left_mask texture_size band_radius
       = Py.Ok rightMask.
Proof.
  intros ts br lm rm r c Hbr Hlm Hrm Hr Hc.
  assert (Hlm' : StimulusClasses.make_right_mask ts br = Py.Ok lm)
    by exact Hlm.
  assert (Hrm' : StimulusClasses.make_left_mask ts br = Py.Ok rm)
    by exact Hrm.
  split; [exact (right_mask_pixel ts br lm r c Hbr Hlm' Hr Hc)|].
  split; [exact (left_mask_pixel ts br rm r c Hbr Hrm' Hr Hc)|].
  split; assumption.
Qed.

Lemma omr_masks_witness :
  match BinocularOmr.make_leftMask 8 2, BinocularOmr.make_rightMask 8 2 with
  | Py.Ok leftMask, Py.Ok rightMask =>
      Np.getitem2 leftMask 1 6
      = Some (if 8 / 2 + 2 <=? Z.of_nat 6 then 255%Q else 0%Q)
      /\ Np.getitem2 rightMask 1 6
         = Some (if Z.of_nat 6 <? 8 / 2 - 2 then 255%Q else 0%Q)
      /\ StimulusClasses.make_right_mask 8 2 = Py.Ok leftMask
      /\ StimulusClasses.make_left_mask 8 2 = Py.Ok rightMask
  | _, _ => False
  end.
Proof.
  destruct (BinocularOmr.make_leftMask 8 2) as [lm|e] eqn:Hl;
    [|vm_compute in Hl; discriminate].
  destruct (BinocularOmr.make_rightMask 8 2) as [rm|e] eqn:Hr;
    [|vm_compute in Hr; discriminate].
  apply (omr_masks 8 2 lm rm 1%nat 6%nat
           ltac:(vm_compute; split; discriminate) Hl Hr); reflexivity.
Defined.

(** ** Edges of the experiment's tasks *)

Lemma getitem_last {A} (xs : list A) (x : A) :
  Py.getitem xs (-1) = Some x ->
  0 < Z.of_nat (List.length xs)
  /\ Py.getitem xs (Z.of_nat (List.length xs) - 1) = Some x.
Proof.
  intro H. pose proof (getitem_Some_range xs (-1) x H) as Hrange.
  split; [lia|].
  revert H. unfold Py.getitem.
  set (n := Z.of_nat (List.length xs)) in *.
  change (0 <=? -1) with false. cbn [andb].
  replace ((- n <=? -1) && (-1 <? 0)) with true
    by (symmetry; apply andb_true_iff; split;
        [apply Z.leb_le; lia|reflexivity]).
  replace ((0 <=? n - 1) && (n - 1 <? n)) with true
    by (symmetry; apply andb_true_iff; split;
        [apply Z.leb_le; lia|apply Z.ltb_lt; lia]).
  replace (-1 + n) with (n - 1) by lia. auto.
Qed.

Lemma getitem_at_length {A} (xs : list A) :
  Py.getitem xs (Z.of_nat (List.length xs)) = None.
Proof.
  rewrite getitem_nat. apply nth_error_None. lia.
Qed.

(** X18: A frame exactly at the end of the timeline ends the experiment with
    an exception.  When the object walks the change times the tasks read
    from the module, the event list is as long as the change times and
    the last event is on show, a call of [set_texture_task] at exactly
    the last change time moves the index past the last event and raises
    [IndexError] on reading the event there. *)
Theorem set_texture_task_at_exact_end :
  forall kwargs (texture_function : kwargs -> Np.ndarray) event_change_times
         texture_size (s : StimulusClasses.FullFieldDriftExperiment kwargs)
         (t last : Q) (n : Z),
    StimulusClasses.self_event_change_times s = event_change_times ->
    Z.of_nat (List.length (StimulusClasses.events s)) = n ->
    Z.of_nat (List.length event_change_times) = n ->
    StimulusClasses.current_event_num s = n - 1 ->
    Py.getitem event_change_times (-1) = Some last ->
    (t == last)%Q ->
    StimulusClasses.set_texture_task texture_function event_change_times
      texture_size t s
    = (StimulusClasses.set_current_event_num n s, Py.Raise Py.IndexError).
Proof.
  intros kwargs tf ect ts s t last n Hself Hev Hect Hcur Hlast Ht.
  destruct (getitem_last ect last Hlast) as [Hpos Hc].
  rewrite Hect in Hc.
  assert (Hin : Qle_bool t last = true)
    by (apply Qle_bool_iff; rewrite Ht; apply Qle_refl).
  assert (Hle : Qle_bool last t = true)
    by (apply Qle_bool_iff; rewrite Ht; apply Qle_refl).
  unfold StimulusClasses.set_texture_task, StimulusClasses.current_event_ind.
  eff_unfold. rewrite Hlast, Hin, Hself, Hcur, Hc, Hle.
  cbn [StimulusClasses.events StimulusClasses.current_event_num
       StimulusClasses.set_current_event_num].
  rewrite !Hcur. replace (n - 1 + 1) with n by lia.
  assert (Hnone : Py.getitem (StimulusClasses.events s) n = None)
    by (rewrite <- Hev; apply getitem_at_length).
  rewrite Hnone. reflexivity.
Qed.

Lemma set_texture_task_at_exact_end_witness :
  StimulusClasses.set_texture_task
    (Sample.constant_texture Sample.gray_uint8)
    StimulusClasses.Main.event_change_times StimulusClasses.Main.texture_size
    (52 # 2) (Sample.exp_app_at 8)
  = (StimulusClasses.set_current_event_num 9 (Sample.exp_app_at 8),
     Py.Raise Py.IndexError).
Proof.
  apply (set_texture_task_at_exact_end _ _ _ _ (Sample.exp_app_at 8)
           (52 # 2)%Q 26%Q 9); reflexivity.
Defined.

(** X19: The tasks rely on a stimulus having been shown before.  An
    experiment whose first event is a stimulus raises [AttributeError]
    at the first call of [move_texture_task], which reads
    [self.texture_stage] before anything assigned it; and a call of
    [set_texture_task] that moves on to a baseline event while
    [texture_stage] is still unassigned raises the same error, after it
    has advanced the index. *)
Theorem texture_stage_unset :
  forall kwargs (texture_function : kwargs -> Np.ndarray) event_change_times
         texture_size,
    (forall stim_params experiment_structure window_size size t last e p,
        let s := StimulusClasses.FullFieldDriftExperiment_init kwargs
                   stim_params experiment_structure window_size size in
        Py.getitem event_change_times (-1) = Some last ->
        (t <= last)%Q ->
        Py.getitem (StimulusClasses.es_event_values experiment_structure) 0
        = Some e ->
        e <> -1 ->
        Py.getitem stim_params e = Some p ->
        StimulusClasses.move_texture_task event_change_times t s
        = (s, Py.Raise (Py.AttributeError "texture_stage")))
    /\ (forall (s : StimulusClasses.FullFieldDriftExperiment kwargs)
               t last c,
           StimulusClasses.texture_stage s = None ->
           Py.getitem event_change_times (-1) = Some last ->
           (t <= last)%Q ->
           Py.getitem (StimulusClasses.self_event_change_times s)
             (StimulusClasses.current_event_num s) = Some c ->
           (c <= t)%Q ->
           Py.getitem (StimulusClasses.events s)
             (StimulusClasses.current_event_num s + 1) = Some (-1) ->
           let call := StimulusClasses.set_texture_task texture_function
                         event_change_times texture_size t s in
           snd call = Py.Raise (Py.AttributeError "texture_stage")
           /\ StimulusClasses.current_event_num (fst call)
              = StimulusClasses.current_event_num s + 1).
Proof.
  intros kwargs tf ect ts. split.
  - intros sp es ws size t last e p s Hlast Hin He Hne Hp. subst s.
    apply Qle_bool_iff in Hin. apply Z.eqb_neq in Hne.
    unfold StimulusClasses.move_texture_task,
      StimulusClasses.current_stim_params, StimulusClasses.current_event_ind,
      StimulusClasses.FullFieldDriftExperiment_init.
    eff_unfold. rewrite Hlast, Hin. cbn. rewrite He. cbn. rewrite Hne.
    cbn. rewrite He, Hp. reflexivity.
  - intros s t last c Hnone Hlast Hin Hc Hle Hnext call. subst call.
    apply Qle_bool_iff in Hin, Hle.
    unfold StimulusClasses.set_texture_task, StimulusClasses.show_baseline,
      StimulusClasses.current_event_ind.
    eff_unfold. rewrite Hlast, Hin, Hc, Hle.
    cbn [StimulusClasses.events StimulusClasses.current_event_num
         StimulusClasses.set_current_event_num].
    rewrite Hnext. change (-1 =? -1) with true. cbv iota.
    destruct s as [ev sect ed n ne sp sts ws bg wt cd tx tsg out].
    cbn in Hnone. subst tsg. cbn. split; reflexivity.
Qed.

Lemma texture_stage_unset_witness :
  (let s := StimulusClasses.FullFieldDriftExperiment_init
              StimulusClasses.Main.kwargs StimulusClasses.Main.stim_params
              (StimulusClasses.mk_ExperimentStructure [2; -1; 1; -1]
                 [4; 2; 4; 2]%Q [4; 6; 10; 12]%Q) 512 512 in
   StimulusClasses.move_texture_task [4; 6; 10; 12]%Q 0 s
   = (s, Py.Raise (Py.AttributeError "texture_stage")))
  /\ (let s := StimulusClasses.FullFieldDriftExperiment_init
                 StimulusClasses.Main.kwargs StimulusClasses.Main.stim_params
                 (StimulusClasses.mk_ExperimentStructure [-1; -1; 1; -1]
                    [4; 2; 4; 2]%Q [4; 6; 10; 12]%Q) 512 512 in
      let call := StimulusClasses.set_texture_task
                    (Sample.constant_texture Sample.gray_uint8)
                    [4; 6; 10; 12]%Q 512 4 s in
      snd call = Py.Raise (Py.AttributeError "texture_stage")
      /\ StimulusClasses.current_event_num (fst call)
         = StimulusClasses.current_event_num s + 1).
Proof.
  destruct (texture_stage_unset StimulusClasses.Main.kwargs
              (Sample.constant_texture Sample.gray_uint8)
              [4; 6; 10; 12]%Q 512) as [Hmove Hset].
  split.
  - apply (Hmove StimulusClasses.Main.stim_params _ 512 512 0%Q 12%Q 2
             (StimulusClasses.mk_StimParams 90 (5 # 100)
                (5%Q, StimulusClasses.Main.texture_size)));
      try reflexivity; discriminate.
  - apply (Hset _ 4%Q 12%Q 4%Q); try reflexivity; discriminate.
Defined.

(** ** Runs of the experiment *)

Section ExperimentRuns.
Import StimulusClasses.
Variable kwargs : Type.
Variable texture_function : kwargs -> Np.ndarray.
Variable event_change_times : list Q.
Variable texture_size : Z.

Local Abbreviation State := (FullFieldDriftExperiment kwargs).

(** What a call of [show_stimulus] that returns has looked up and set. *)
Lemma show_stimulus_returns (s s' : State) u :
  show_stimulus texture_function texture_size s = (s', Py.Ok u) ->
  exists e p,
    Py.getitem (events s) (current_event_num s) = Some e
    /\ Py.getitem (stim_params s) e = Some p
    /\ current_event_num s' = current_event_num s
    /\ events s' = events s
    /\ stim_params s' = stim_params s
    /\ texture_stage s' = Some "stim_texture_stage".
Proof.
  intros Hcall. revert Hcall.
  match goal with |- _ -> ?G => remember G as Concl eqn:HConcl end.
  unfold show_stimulus, current_stim_params, current_event_ind. eff_unfold.
  destruct s as [ev ect ed n ne sp sts ws bg wt cd tx tsg out].
  eff_cases'; intros Hcall; try discriminate Hcall;
    inversion Hcall; subst; clear Hcall; cbn;
    repeat match goal with
           | H : Some _ = Some _ |- _ => inversion H; subst; clear H
           end;
    do 2 eexists; repeat split; eassumption.
Qed.

Lemma show_baseline_returns (s s' : State) r :
  show_baseline s = (s', r) ->
  current_event_num s' = current_event_num s
  /\ events s' = events s
  /\ stim_params s' = stim_params s
  /\ texture_stage s' = texture_stage s.
Proof.
  unfold show_baseline. eff_unfold.
  destruct s as [ev ect ed n ne sp sts ws bg wt cd tx tsg out]. cbn.
  destruct tsg; cbn; intros Hcall; inversion Hcall; subst; cbn; auto.
Qed.

Lemma move_task_keeps (s s' : State) t r :
  move_texture_task event_change_times t s = (s', r) ->
  current_event_num s' = current_event_num s
  /\ events s' = events s
  /\ stim_params s' = stim_params s
  /\ texture_stage s' = texture_stage s.
Proof.
  intros Hcall. revert Hcall.
  match goal with |- _ -> ?G => remember G as Concl eqn:HConcl end.
  unfold move_texture_task, current_stim_params, current_event_ind.
  eff_unfold.
  destruct s as [ev ect ed n ne sp sts ws bg wt cd tx tsg out].
  eff_cases'; intros Hcall; inversion Hcall; subst; clear Hcall; cbn; auto.
Qed.

(** While a stimulus is on show its texture stage and its parameters
    are there. *)
Lemma set_task_keeps_stage (s s' : State) t r :
  (exists e, Py.getitem (events s) (current_event_num s) = Some e
             /\ (e <> -1 ->
                 texture_stage s <> None
                 /\ exists p, Py.getitem (stim_params s) e = Some p)) ->
  set_texture_task texture_function event_change_times texture_size t s
  = (s', Py.Ok r) ->
  exists e, Py.getitem (events s') (current_event_num s') = Some e
            /\ (e <> -1 ->
                texture_stage s' <> None
                /\ exists p, Py.getitem (stim_params s') e = Some p).
Proof.
  intros Hinv. unfold set_texture_task. eff_unfold.
  destruct (Py.getitem event_change_times (-1)) as [last|]; [|discriminate].
  destruct (Qle_bool t last);
    [|intros Hcall; inversion Hcall; subst; exact Hinv].
  destruct (Py.getitem (self_event_change_times s) (current_event_num s))
    as [c|]; [|discriminate].
  destruct (Qle_bool c t);
    [|intros Hcall; inversion Hcall; subst; exact Hinv].
  set (s1 := set_current_event_num (current_event_num s + 1) s).
  unfold current_event_ind. eff_unfold.
  destruct (Py.getitem (events s1) (current_event_num s1)) as [e|] eqn:He;
    [|discriminate].
  destruct (e =? -1) eqn:Hbase.
  - apply Z.eqb_eq in Hbase. subst e.
    destruct (show_baseline s1) as [s2 [u|ex]] eqn:Hshow; [|discriminate].
    intros Hcall. inversion Hcall; subst s2.
    destruct (show_baseline_returns s1 s' _ Hshow) as (Hi & Hev & _).
    exists (-1). rewrite Hev, Hi. split; [exact He|]. intros H. contradiction.
  - destruct (show_stimulus texture_function texture_size s1)
      as [s2 [u|ex]] eqn:Hshow; [|discriminate].
    intros Hcall. inversion Hcall; subst s2.
    destruct (show_stimulus_returns s1 s' u Hshow)
      as (e' & p & He' & Hp & Hi & Hev & Hsp & Hstage).
    exists e'. rewrite Hev, Hi. split; [exact He'|]. intros _.
    split; [rewrite Hstage; discriminate|]. exists p. now rewrite Hsp.
Qed.

Lemma run_keeps_stage (start s : State) :
  Py.getitem (events start) (current_event_num start) = Some (-1) ->
  StimulusClassesRest.run_reachable kwargs texture_function
    event_change_times texture_size start s ->
  exists e, Py.getitem (events s) (current_event_num s) = Some e
            /\ (e <> -1 ->
                texture_stage s <> None
                /\ exists p, Py.getitem (stim_params s) e = Some p).
Proof.
  intros Hstart.
  induction 1 as [|s t s' r Hreach IH Hcall | s t s' r Hreach IH Hcall].
  - exists (-1). split; [exact Hstart|]. intros H. contradiction.
  - destruct (move_task_keeps s s' t _ Hcall) as (Hi & Hev & Hsp & Hstage).
    rewrite Hi, Hev, Hsp, Hstage. exact IH.
  - exact (set_task_keeps_stage s s' t r IH Hcall).
Qed.

(** X20: In any run of an experiment whose first event is the baseline,
    [move_texture_task] never raises: up to the last change time it
    returns [task.cont], having set the texture offset to minus the
    elapsed time times the velocity of the stimulus on show (and nothing
    during a baseline); after the last change time it sets the title to
    "FFDE Done" and returns [task.done]. *)
Theorem move_texture_task_never_raises :
  forall stim_params experiment_structure window_size size
         (s : State) (t last : Q),
    Py.getitem (es_event_values experiment_structure) 0 = Some (-1) ->
    StimulusClassesRest.run_reachable kwargs texture_function
      event_change_times texture_size
      (FullFieldDriftExperiment_init kwargs stim_params experiment_structure
                                     window_size size) s ->
    Py.getitem event_change_times (-1) = Some last ->
    let call := move_texture_task event_change_times t s in
    ((t <= last)%Q ->
     snd call = Py.Ok Panda.cont
     /\ exists e,
         Py.getitem (events s) (current_event_num s) = Some e
         /\ (e = -1 -> fst call = s)
         /\ (e <> -1 ->
             exists p,
               Py.getitem (StimulusClasses.stim_params s) e = Some p
               /\ Panda.card_tex_pos (card1 (fst call))
                  = (- t * sp_velocity p)%Q))
    /\ ((last < t)%Q ->
        snd call = Py.Ok Panda.done /\ window_title (fst call) = "FFDE Done").
Proof.
  intros sp es ws size s t last Hfirst Hreach Hlast call.
  destruct (run_keeps_stage
              (FullFieldDriftExperiment_init kwargs sp es ws size) s
              Hfirst Hreach) as (e & He & Hstim).
  subst call.
  unfold move_texture_task, current_stim_params, current_event_ind.
  eff_unfold. rewrite Hlast. split.
  - intros Hin. apply Qle_bool_iff in Hin. rewrite Hin, He.
    destruct (e =? -1) eqn:Hbase; cbn [negb].
    + apply Z.eqb_eq in Hbase. cbn. split; [reflexivity|].
      exists e. split; [reflexivity|]. split; [reflexivity|]. contradiction.
    + apply Z.eqb_neq in Hbase.
      destruct (Hstim Hbase) as (Hstage & p & Hp).
      rewrite He, Hp.
      destruct (texture_stage s) as [stage|] eqn:Hst; [|contradiction].
      cbn. split; [reflexivity|].
      exists e. split; [reflexivity|]. split; [contradiction|].
      intros _. exists p. split; [exact Hp|reflexivity].
  - intros Hlate.
    assert (Hnle : Qle_bool t last = false).
    { destruct (Qle_bool t last) eqn:E; [|reflexivity].
      apply Qle_bool_iff in E. exfalso. apply (Qlt_not_le _ _ Hlate E). }
    rewrite Hnle. cbn. split; reflexivity.
Qed.
End ExperimentRuns.

Lemma move_texture_task_never_raises_witness :
  let tf := Sample.constant_texture Sample.gray_uint8 in
  let ect := StimulusClasses.Main.event_change_times in
  let s := fst (StimulusClasses.set_texture_task tf ect
                  StimulusClasses.Main.texture_size 2
                  StimulusClasses.Main.exp_app) in
  let call := StimulusClasses.move_texture_task ect 3 s in
  ((3 <= 26)%Q ->
   snd call = Py.Ok Panda.cont
   /\ exists e,
       Py.getitem (StimulusClasses.events s)
         (StimulusClasses.current_event_num s) = Some e
       /\ (e = -1 -> fst call = s)
       /\ (e <> -1 ->
           exists p,
             Py.getitem (StimulusClasses.stim_params s) e = Some p
             /\ Panda.card_tex_pos (StimulusClasses.card1 (fst call))
                = (- (3) * StimulusClasses.sp_velocity p)%Q))
  /\ ((26 < 3)%Q ->
      snd call = Py.Ok Panda.done
      /\ StimulusClasses.window_title (fst call) = "FFDE Done").
Proof.
  intros tf ect s.
  assert (Hcall : StimulusClasses.set_texture_task tf ect
                    StimulusClasses.Main.texture_size 2
                    StimulusClasses.Main.exp_app = (s, Py.Ok Panda.cont))
    by (vm_compute; reflexivity).
  apply (move_texture_task_never_raises StimulusClasses.Main.kwargs tf ect
           StimulusClasses.Main.texture_size StimulusClasses.Main.stim_params
           StimulusClasses.Main.experiment_structure
           StimulusClasses.Main.window_size StimulusClasses.Main.texture_size
           s 3%Q 26%Q).
  - reflexivity.
  - eapply StimulusClassesRest.run_set;
      [apply StimulusClassesRest.run_start|exact Hcall].
  - reflexivity.
Defined.



(** ** The grating texture *)

Lemma nth_error_tiled {A} (x : list A) (n r c : nat) :
  (r < n)%nat -> (c < List.length x)%nat ->
  nth_error (List.concat (repeat x n)) (r * List.length x + c)
  = nth_error x c.
Proof.
  revert r. induction n as [|n IH]; intros r Hr Hc; [lia|].
  cbn [repeat List.concat]. destruct r as [|r].
  - cbn [Nat.mul Nat.add]. now apply nth_error_app1.
  - rewrite nth_error_app2 by (cbn; lia).
    replace (S r * List.length x + c - List.length x)%nat
      with (r * List.length x + c)%nat by (cbn; lia).
    apply IH; lia.
Qed.

(** X22: The grating is made of vertical bars: [gratingTex] has one row per
    sample point of [y] and one column per sample point of [x] (the
    first [texSize] of each), and its value at row [r], column [c] is
    255 or 0 by the square wave at [x[c] * spatial_freq] alone, the same
    in every row. *)
Theorem gratingTex_vertical_bars :
  forall (first_half : Q -> bool) (x y : list Q) (r r' c : nat),
    let tex := GratingTexture.gratingTex first_half x y in
    let xs := PyMore.slice x None (Some DriftingGrating.texSize) in
    let ys := PyMore.slice y None (Some DriftingGrating.texSize) in
    (r < List.length ys)%nat ->
    (r' < List.length ys)%nat ->
    (c < List.length xs)%nat ->
    Np.shape tex = [List.length ys; List.length xs]
    /\ Np.getitem2 tex r c
       = option_map
           (fun v => if first_half (v * DriftingGrating.spatial_freq)%Q
                     then 255%Q else 0%Q)
           (nth_error x c)
    /\ Np.getitem2 tex r c = Np.getitem2 tex r' c.
Proof.
  intros fh x y r r' c tex xs ys Hr Hr' Hc.
  assert (Hpix : forall k, (k < List.length ys)%nat ->
             Np.getitem2 tex k c
             = option_map
                 (fun v => if fh (v * DriftingGrating.spatial_freq)%Q
                           then 255%Q else 0%Q)
                 (nth_error x c)).
  { intros k Hk. subst tex. unfold Np.getitem2.
    change (Np.shape (GratingTexture.gratingTex fh x y))
      with [List.length ys; List.length xs].
    cbv beta iota.
    apply Nat.ltb_lt in Hk, Hc. rewrite Hk, Hc. cbn [andb].
    apply Nat.ltb_lt in Hk, Hc.
    unfold GratingTexture.gratingTex. cbv zeta.
    rewrite square8bit_data. unfold PyMore.meshgrid_X. cbn [Np.data].
    fold xs ys. rewrite nth_error_map, nth_error_tiled by assumption.
    f_equal. subst xs. unfold PyMore.slice, Py.slice_indices in *.
    cbv iota beta in *. change (Z.to_nat 0) with 0%nat in *.
    rewrite skipn_O in *. rewrite Z.sub_0_r in *.
    rewrite nth_error_firstn.
    rewrite length_firstn in Hc.
    replace (c <? _)%nat with true; [reflexivity|].
    symmetry. apply Nat.ltb_lt. lia. }
  split; [reflexivity|]. split; [apply Hpix; exact Hr|].
  now rewrite (Hpix r Hr), (Hpix r' Hr').
Qed.

Lemma gratingTex_vertical_bars_witness :
  let tex := GratingTexture.gratingTex Sample.first_half
               [0; 1 # 4; 1 # 2; 3 # 4]%Q [0; 1 # 4; 1 # 2; 3 # 4]%Q in
  Np.shape tex = [4; 4]%nat
  /\ Np.getitem2 tex 0 2 = Some 0%Q
  /\ Np.getitem2 tex 0 2 = Np.getitem2 tex 3 2.
Proof.
  intros tex.
  destruct (gratingTex_vertical_bars Sample.first_half
              [0; 1 # 4; 1 # 2; 3 # 4]%Q [0; 1 # 4; 1 # 2; 3 # 4]%Q
              0%nat 3%nat 2%nat
              ltac:(vm_compute; lia) ltac:(vm_compute; lia)
              ltac:(vm_compute; lia)) as (Hshape & Hpix & Hrows).
  fold tex in Hshape, Hpix, Hrows.
  split; [exact Hshape|]. split; [|exact Hrows].
  rewrite Hpix. reflexivity.
Defined.
